(** * The Delta API client (covata/delta/apiclient.py)

    A shallow embedding of [ApiClient]: every operation validates its
    arguments, builds the keyword arguments of one [requests] call, has the
    prepared request signed by the requestor's signer, sends it, and decodes
    the response.

    Python dictionaries are finite maps ([gmap string _]); exceptions are
    values of [exception]; an operation is a computation in the monad [io],
    which threads the log of requests put on the wire and either returns a
    value or raises. *)

From stdpp Require Import gmap strings list fin_maps pretty.
From Stdlib Require Import ZArith Ascii.

Local Open Scope Z_scope.

(** ** Python values *)

(** JSON documents, as [json.loads] / [response.json()] produce them and as
    the [json=] keyword of [requests] consumes them.  [JNull] is Python's
    [None]. *)
#[warnings="-register-all"]
Inductive JSON : Type :=
| JNull
| JBool (b : bool)
| JNum (z : Z)
| JStr (s : string)
| JList (l : list JSON)
| JObj (m : gmap string JSON).

(** [v is None] *)
Definition is_None (v : JSON) : bool :=
  match v with JNull => true | _ => false end.

(** A [dict[str, str]] argument seen as a JSON object. *)
Definition json_of_dict (d : gmap string string) : JSON := JObj (JStr <$> d).

(** Values of the [params=] dictionary: [None], an [int] or a [str]. *)
Inductive pyval : Type :=
| PNone
| PInt (z : Z)
| PStr (s : string).

(** [None if x is None else str(x)] for an optional string argument. *)
Definition str_or_None (x : option string) : pyval :=
  match x with None => PNone | Some s => PStr s end.

(** [int(x) if x else None]: the test is the truthiness of [x], so both
    [None] and [0] give [None]. *)
Definition int_if_truthy (x : option Z) : pyval :=
  match x with
  | None => PNone
  | Some z => if z =? 0 then PNone else PInt z
  end.

(** [str(n)] for an [int]. *)
Definition str (n : Z) : string := pretty n.

(** *** [int(s)] for a [str]

    Surrounding white space is stripped, an optional sign is read, and the
    rest must be decimal digits, where single underscores may separate
    digits (Python 3.6 and later).  A string is read as Latin-1 text, one
    character per code point below 256.  The white space that [int] strips
    is the tab to carriage return range and the space, and the two
    characters U+0085 and U+00A0, which CPython turns into spaces before it
    parses; the separators 28 to 31 are not stripped. *)
Definition is_space (c : ascii) : bool :=
  let n := N_of_ascii c in
  ((9 <=? n) && (n <=? 13) || (n =? 32) || (n =? 133) || (n =? 160))%N.

Definition digit_of (c : ascii) : option Z :=
  let n := N_of_ascii c in
  if ((48 <=? n) && (n <=? 57))%N then Some (Z.of_N n - 48) else None.

Fixpoint lstrip (s : string) : string :=
  match s with
  | String c s' => if is_space c then lstrip s' else s
  | EmptyString => EmptyString
  end.

Fixpoint rstrip (s : string) : string :=
  match s with
  | String c s' =>
      match rstrip s' with
      | EmptyString => if is_space c then EmptyString else String c EmptyString
      | t => String c t
      end
  | EmptyString => EmptyString
  end.

Definition strip (s : string) : string := rstrip (lstrip s).

(** No character of [s] is white space. *)
Fixpoint no_space (s : string) : bool :=
  match s with
  | EmptyString => true
  | String c s' => negb (is_space c) && no_space s'
  end.

(** [digits acc after_digit s]: [after_digit] tells whether the previous
    character was a digit, the only place where an underscore or the end of
    the literal may follow. *)
Fixpoint digits (acc : Z) (after_digit : bool) (s : string) : option Z :=
  match s with
  | EmptyString => if after_digit then Some acc else None
  | String c s' =>
      match digit_of c with
      | Some d => digits (10 * acc + d) true s'
      | None =>
          if Ascii.eqb c "_"%char && after_digit
          then digits acc false s'
          else None
      end
  end.

(** An optional sign, then the digits. *)
Definition signed_digits (s : string) : option Z :=
  match s with
  | String "-"%char t => Z.opp <$> digits 0 false t
  | String "+"%char t => digits 0 false t
  | _ => digits 0 false s
  end.

Definition int_of_str (s : string) : option Z := signed_digits (strip s).

(** [s.lower()] on ASCII, the key normalisation of [CaseInsensitiveDict]. *)
Definition lower_ascii (c : ascii) : ascii :=
  let n := N_of_ascii c in
  if ((65 <=? n) && (n <=? 90))%N then ascii_of_N (n + 32) else c.

Fixpoint lower (s : string) : string :=
  match s with
  | EmptyString => EmptyString
  | String c s' => String (lower_ascii c) (lower s')
  end.

(** ** The [requests] library

    Only what the client relies on is modelled: the keyword arguments of a
    call, the prepared request handed to the [auth] hook, the response, and
    [raise_for_status]. *)

(** The keyword arguments of [requests.get], [post], [put] and [delete].
    An argument the caller leaves out is the empty dictionary, or [None] for
    [json]. *)
Module Request.
Record t : Type := mk {
  method : string;
  url : string;
  params : gmap string pyval;
  headers : gmap string string;
  json : option JSON;
}.
End Request.

(** [requests.PreparedRequest], the object the [auth] hook receives. *)
Module PreparedRequest.
Record t : Type := mk {
  method : string;
  url : string;
  headers : gmap string string;
  body : option string;
}.

(** [r.headers = h] *)
Definition set_headers (h : gmap string string) (r : t) : t :=
  {| method := method r; url := url r; headers := h; body := body r |}.
End PreparedRequest.

(** [requests.Response].  [headers] is a [CaseInsensitiveDict]: its keys are
    kept in lower case and looked up in lower case.  [json] is the decoded
    body, [None] when the body is not a JSON document. *)
Module Response.
Record t : Type := mk {
  status_code : Z;
  headers : gmap string string;
  json : option JSON;
  text : string;
}.
End Response.

Inductive exception : Type :=
| ValidationError (argument message : string)
| HTTPError (response : Response.t)
| ConnectionError (message : string)
| KeyError (key : string)
| AttributeError (message : string)
| TypeError (message : string)
| ValueError (message : string).

(** [type(e).__name__] *)
Definition type_name (e : exception) : string :=
  match e with
  | ValidationError _ _ => "ValidationError"
  | HTTPError _ => "HTTPError"
  | ConnectionError _ => "ConnectionError"
  | KeyError _ => "KeyError"
  | AttributeError _ => "AttributeError"
  | TypeError _ => "TypeError"
  | ValueError _ => "ValueError"
  end.

(** The result of evaluating a Python expression that may raise. *)
Inductive outcome (A : Type) : Type :=
| Return (a : A)
| Raise (e : exception).
Arguments Return {A} a.
Arguments Raise {A} e.

(** How a [params=] dictionary reaches the query string: an entry whose
    value is [None] is left out, the other values are written as text. *)
Definition encode_params (params : gmap string pyval) : gmap string string :=
  omap (λ v, match v with
             | PNone => None
             | PInt z => Some (str z)
             | PStr s => Some s
             end) params.

(** [Response.raise_for_status]: client errors (4xx) and server errors (5xx)
    raise [HTTPError] with the response attached; every other status
    returns. *)
Definition raise_for_status (r : Response.t) : outcome unit :=
  if (400 <=? Response.status_code r) && (Response.status_code r <? 600)
  then Raise (HTTPError r)
  else Return tt.

(** [response.json()] *)
Definition response_json (r : Response.t) : outcome JSON :=
  match Response.json r with
  | Some j => Return j
  | None => Raise (ValueError "No JSON object could be decoded")
  end.

(** [response.headers[name]] *)
Definition response_header (r : Response.t) (name : string) : outcome string :=
  match Response.headers r !! lower name with
  | Some v => Return v
  | None => Raise (KeyError (lower name))
  end.

(** [j[key]] for a decoded JSON document [j] and a string [key]. *)
Definition getitem (j : JSON) (key : string) : outcome JSON :=
  match j with
  | JObj m =>
      match m !! key with
      | Some v => Return v
      | None => Raise (KeyError key)
      end
  | _ => Raise (TypeError "indices must be integers")
  end.

(** One element of the sequence given to [dict]: it must itself be a
    sequence of exactly two elements, the key and the value.  A two-element
    array whose key is a string, and a string of two characters, are
    followed.  Two kinds of element give in Python an entry that
    [gmap string JSON] cannot hold, and are reported as a [TypeError] here:
    a two-element array whose key is a number, a boolean or null, and an
    object with two members (Python pairs its keys). *)
Definition dict_item (j : JSON) : outcome (string * JSON) :=
  match j with
  | JList [JStr k; v] => Return (k, v)
  | JList [_; _] => Raise (TypeError "unhashable type")
  | JList _ =>
      Raise (ValueError "dictionary update sequence element has length other than 2")
  | JStr (String a (String b EmptyString)) =>
      Return (String a EmptyString, JStr (String b EmptyString))
  | JStr _ =>
      Raise (ValueError "dictionary update sequence element has length other than 2")
  | JObj m =>
      if bool_decide (size m = 2%nat)
      then Raise (TypeError "unhashable type")
      else Raise (ValueError "dictionary update sequence element has length other than 2")
  | JNull | JBool _ | JNum _ =>
      Raise (TypeError "cannot convert dictionary update sequence element to a sequence")
  end.

(** The elements are entered in order, a later key replacing an earlier
    one. *)
Fixpoint dict_items (l : list JSON) (acc : gmap string JSON)
    : outcome (gmap string JSON) :=
  match l with
  | [] => Return acc
  | j :: l' =>
      match dict_item j with
      | Return (k, v) => dict_items l' (<[k := v]> acc)
      | Raise e => Raise e
      end
  end.

(** [dict(j)] for a decoded JSON document [j].  A JSON object is copied; an
    array is read as a sequence of key/value pairs; the empty string gives
    the empty dictionary and any other string a [ValueError] (its elements
    are strings of one character); null, a boolean and a number are not
    iterable. *)
Definition dict_of_json (j : JSON) : outcome (gmap string JSON) :=
  match j with
  | JObj m => Return m
  | JList l => dict_items l ∅
  | JStr EmptyString => Return ∅
  | JStr _ =>
      Raise (ValueError "dictionary update sequence element #0 has length 1; 2 is required")
  | JNull | JBool _ | JNum _ => Raise (TypeError "object is not iterable")
  end.

(** [int(s)], raising [ValueError] on a malformed literal.  The message
    shows the literal between quotes, without the escapes that [repr] adds
    for quotes, backslashes and unprintable characters. *)
Definition int (s : string) : outcome Z :=
  match int_of_str s with
  | Some z => Return z
  | None =>
      Raise (ValueError
               ("invalid literal for int() with base 10: '" +:+ s +:+ "'"))
  end.

(** ** Collaborators

    What the client calls into but does not implement: the key store handed
    to its constructor, the [signer] module, the predicates of the [utils]
    validators, and the [requests] session that prepares and transmits. *)
Class Collaborators : Type := {
  PrivateKey : Type;
  (** [key_store.get_private_signing_key(identity_id)] *)
  get_private_signing_key : string → outcome PrivateKey;
  (** [signer.get_updated_headers(identity_id, method, url, headers,
      payload, private_signing_key)] *)
  get_updated_headers :
    string → string → string → gmap string string → option string →
    PrivateKey → outcome (gmap string string);
  (** what [utils.check_id] accepts as an identifier *)
  valid_id : string → bool;
  (** what [utils.check_optional_pagination] accepts when the argument is
      not [None] *)
  valid_pagination : Z → bool;
  (** what [utils.check_metadata] accepts *)
  valid_metadata : gmap string string → bool;
  (** the session turning keyword arguments into a prepared request, before
      the [auth] hook runs *)
  prepare : Request.t → PreparedRequest.t;
  (** transmission of a prepared request and receipt of the response *)
  transport : PreparedRequest.t → outcome Response.t;
}.

(** ** Operations as computations

    A computation receives the log of the requests transmitted so far and
    gives back its outcome with the extended log. *)
Record Sent : Type := mkSent {
  call : Request.t;
  wire : PreparedRequest.t;
}.

Definition io (A : Type) : Type := list Sent → outcome A * list Sent.

#[global] Instance io_ret : MRet io := λ A a log, (Return a, log).

#[global] Instance io_bind : MBind io := λ A B f m log,
  match m log with
  | (Return a, log') => f a log'
  | (Raise e, log') => (Raise e, log')
  end.

Definition raise {A : Type} (e : exception) : io A := λ log, (Raise e, log).

Definition lift {A : Type} (o : outcome A) : io A := λ log, (o, log).

Module requests.
Section requests.
Context `{!Collaborators}.

(** [Session.send]: the request goes on the wire and is logged, whatever
    the transport then answers. *)
Definition send (kw : Request.t) (r : PreparedRequest.t) : io Response.t :=
  λ log, (transport r, log ++ [mkSent kw r]).

(** [Session.request]: prepare, run the [auth] hook on the prepared
    request, transmit. *)
Definition request (kw : Request.t)
    (auth : option (PreparedRequest.t → outcome PreparedRequest.t))
    : io Response.t :=
  r ← lift (match auth with
            | Some hook => hook (prepare kw)
            | None => Return (prepare kw)
            end);
  send kw r.
End requests.
End requests.

(** ** The [utils] validators *)
Module utils.
Section utils.
Context `{!Collaborators}.

(** Modelled from the spec: [utils.check_arguments] is missing from the
    sources.  The decorated function first tests each named argument with
    the predicate, in the order the names are listed, and fails with a
    validation error for the first one that is rejected, before its body
    runs. *)
Fixpoint check_arguments {A : Type} (arguments : list (string * A))
    (predicate : A → bool) (message : string) : io unit :=
  match arguments with
  | [] => mret tt
  | (name, x) :: rest =>
      if predicate x
      then check_arguments rest predicate message
      else raise (ValidationError name message)
  end.

(** Modelled from the spec: [utils.check_id] is missing from the sources;
    it rejects malformed identifiers. *)
Definition check_id (arguments : list (string * string)) : io unit :=
  check_arguments arguments valid_id "must be a valid identifier".

(** Modelled from the spec: [utils.check_optional_id] is missing from the
    sources; [None] is accepted, anything else is checked as an
    identifier. *)
Definition check_optional_id (arguments : list (string * option string))
    : io unit :=
  check_arguments arguments (from_option valid_id true)
    "must be a valid identifier or None".

(** Modelled from the spec: [utils.check_optional_pagination] is missing
    from the sources; [None] is accepted. *)
Definition check_optional_pagination (arguments : list (string * option Z))
    : io unit :=
  check_arguments arguments (from_option valid_pagination true)
    "must be a valid page number or None".

(** Modelled from the spec: [utils.check_metadata] is missing from the
    sources; it rejects metadata that is not well formed. *)
Definition check_metadata (arguments : list (string * gmap string string))
    : io unit :=
  check_arguments arguments valid_metadata "must be a dict[str, str]".
End utils.
End utils.

(** ** [SecretLookupType] *)
Module SecretLookupType.
Inductive t : Type :=
| base      (* restricts lookup to base secrets *)
| derived   (* restricts lookup to derived secrets *)
| any.      (* lookup on both base and derived secrets *)
End SecretLookupType.

(** ** [ApiClient] *)
Module ApiClient.
Section ApiClient.
Context `{!Collaborators}.

Import utils.

Definition DELTA_URL : string := "https://delta.covata.io/v1".
Definition RESOURCE_IDENTITIES : string := "/identities".
Definition RESOURCE_SECRETS : string := "/secrets".
Definition RESOURCE_EVENTS : string := "/events".

(** [dict(("metadata." + k, v) for k, v in metadata.items())] *)
Definition metadata_ (metadata : gmap string string) : gmap string pyval :=
  kmap (String.append "metadata.") (PStr <$> metadata).

(** *** [signer] *)

(** The closure [sign_request] returned by [signer(identity_id)]. *)
Definition sign_request (identity_id : string) (r : PreparedRequest.t)
    : outcome PreparedRequest.t :=
  match get_private_signing_key identity_id with
  | Raise e => Raise e
  | Return signing_key =>
      match get_updated_headers identity_id
              (PreparedRequest.method r) (PreparedRequest.url r)
              (PreparedRequest.headers r) (PreparedRequest.body r)
              signing_key with
      | Raise e => Raise e
      | Return h => Return (PreparedRequest.set_headers h r)
      end
  end.

Definition signer (identity_id : string)
    : io (PreparedRequest.t → outcome PreparedRequest.t) :=
  check_id [("identity_id", identity_id)];;
  mret (sign_request identity_id).

(** *** [register_identity] *)

Definition register_identity_body
    (public_encryption_key public_signing_key : string)
    (external_id : option string) (metadata : option (gmap string string))
    : gmap string JSON :=
  {[ "signingPublicKey" := JStr public_signing_key;
     "cryptoPublicKey" := JStr public_encryption_key;
     "externalId" := from_option JStr JNull external_id;
     "metadata" := from_option json_of_dict JNull metadata ]}.

Definition register_identity_request
    (public_encryption_key public_signing_key : string)
    (external_id : option string) (metadata : option (gmap string string))
    : Request.t :=
  let body := register_identity_body public_encryption_key
                public_signing_key external_id metadata in
  {| Request.method := "POST";
     Request.url := DELTA_URL +:+ RESOURCE_IDENTITIES;
     Request.params := ∅;
     Request.headers := ∅;
     Request.json :=
       Some (JObj (filter (λ kv, is_None kv.2 = false) body)) |}.

Definition register_identity
    (public_encryption_key public_signing_key : string)
    (external_id : option string) (metadata : option (gmap string string))
    : io JSON :=
  response ← requests.request
    (register_identity_request public_encryption_key public_signing_key
       external_id metadata) None;
  lift (raise_for_status response);;
  j ← lift (response_json response);
  identity_id ← lift (getitem j "identityId");
  mret identity_id.

(** *** [get_identity] *)

Definition get_identity_request (identity_id : string) : Request.t :=
  {| Request.method := "GET";
     Request.url := DELTA_URL +:+ RESOURCE_IDENTITIES +:+ "/" +:+ identity_id;
     Request.params := ∅;
     Request.headers := ∅;
     Request.json := None |}.

Definition get_identity (requestor_id identity_id : string) : io JSON :=
  check_id [("requestor_id", requestor_id); ("identity_id", identity_id)];;
  auth ← signer requestor_id;
  response ← requests.request (get_identity_request identity_id) (Some auth);
  lift (raise_for_status response);;
  identity ← lift (response_json response);
  mret identity.

(** *** [get_identities_by_metadata] *)

(** [lambda x: x is not None and dict(x)] *)
Definition is_non_empty_dict (x : option (gmap string string)) : bool :=
  match x with
  | None => false
  | Some d => bool_decide (d ≠ ∅)
  end.

(** [dict(metadata_, page=..., pageSize=...)] *)
Definition get_identities_by_metadata_params
    (metadata : gmap string string) (page page_size : option Z)
    : gmap string pyval :=
  <["pageSize" := int_if_truthy page_size]>
    (<["page" := int_if_truthy page]> (metadata_ metadata)).

Definition get_identities_by_metadata_request
    (metadata : gmap string string) (page page_size : option Z)
    : Request.t :=
  {| Request.method := "GET";
     Request.url := DELTA_URL +:+ RESOURCE_IDENTITIES;
     Request.params :=
       get_identities_by_metadata_params metadata page page_size;
     Request.headers := ∅;
     Request.json := None |}.

Definition get_identities_by_metadata (requestor_id : string)
    (metadata : option (gmap string string)) (page page_size : option Z)
    : io JSON :=
  check_id [("requestor_id", requestor_id)];;
  check_optional_pagination [("page", page); ("page_size", page_size)];;
  check_arguments [("metadata", metadata)] is_non_empty_dict
    "must be a non-empty dict[str, str]";;
  match metadata with
  | None => raise (AttributeError "'NoneType' object has no attribute 'items'")
  | Some metadata =>
      auth ← signer requestor_id;
      response ← requests.request
        (get_identities_by_metadata_request metadata page page_size)
        (Some auth);
      lift (raise_for_status response);;
      lift (response_json response)
  end.

(** *** [create_secret], [share_secret], [delete_secret] *)

Definition create_secret_request (content : string)
    (encryption_details : gmap string string) : Request.t :=
  {| Request.method := "POST";
     Request.url := DELTA_URL +:+ RESOURCE_SECRETS;
     Request.params := ∅;
     Request.headers := ∅;
     Request.json :=
       Some (JObj {[ "content" := JStr content;
                     "encryptionDetails" := json_of_dict encryption_details ]}) |}.

Definition create_secret (requestor_id content : string)
    (encryption_details : gmap string string) : io JSON :=
  check_id [("requestor_id", requestor_id)];;
  auth ← signer requestor_id;
  response ← requests.request
    (create_secret_request content encryption_details) (Some auth);
  lift (raise_for_status response);;
  lift (response_json response).

Definition share_secret_request (content : string)
    (encryption_details : gmap string string)
    (base_secret_id rsa_key_owner_id : string) : Request.t :=
  {| Request.method := "POST";
     Request.url := DELTA_URL +:+ RESOURCE_SECRETS;
     Request.params := ∅;
     Request.headers := ∅;
     Request.json :=
       Some (JObj {[ "content" := JStr content;
                     "encryptionDetails" := json_of_dict encryption_details;
                     "baseSecret" := JStr base_secret_id;
                     "rsaKeyOwner" := JStr rsa_key_owner_id ]}) |}.

Definition share_secret (requestor_id content : string)
    (encryption_details : gmap string string)
    (base_secret_id rsa_key_owner_id : string) : io JSON :=
  check_id [("requestor_id", requestor_id);
            ("base_secret_id", base_secret_id);
            ("rsa_key_owner_id", rsa_key_owner_id)];;
  auth ← signer requestor_id;
  response ← requests.request
    (share_secret_request content encryption_details base_secret_id
       rsa_key_owner_id) (Some auth);
  lift (raise_for_status response);;
  lift (response_json response).

Definition delete_secret_request (secret_id : string) : Request.t :=
  {| Request.method := "DELETE";
     Request.url := DELTA_URL +:+ RESOURCE_SECRETS +:+ "/" +:+ secret_id;
     Request.params := ∅;
     Request.headers := ∅;
     Request.json := None |}.

Definition delete_secret (requestor_id secret_id : string) : io unit :=
  check_id [("requestor_id", requestor_id); ("secret_id", secret_id)];;
  auth ← signer requestor_id;
  response ← requests.request (delete_secret_request secret_id) (Some auth);
  lift (raise_for_status response).

(** *** [get_secret], [get_secret_metadata], [get_secret_content] *)

Definition get_secret_request (secret_id : string) : Request.t :=
  {| Request.method := "GET";
     Request.url := DELTA_URL +:+ RESOURCE_SECRETS +:+ "/" +:+ secret_id;
     Request.params := ∅;
     Request.headers := ∅;
     Request.json := None |}.

Definition get_secret (requestor_id secret_id : string) : io JSON :=
  check_id [("requestor_id", requestor_id); ("secret_id", secret_id)];;
  auth ← signer requestor_id;
  response ← requests.request (get_secret_request secret_id) (Some auth);
  lift (raise_for_status response);;
  lift (response_json response).

Definition get_secret_metadata_request (secret_id : string) : Request.t :=
  {| Request.method := "GET";
     Request.url :=
       DELTA_URL +:+ RESOURCE_SECRETS +:+ "/" +:+ secret_id +:+ "/metadata";
     Request.params := ∅;
     Request.headers := ∅;
     Request.json := None |}.

Definition get_secret_metadata (requestor_id secret_id : string)
    : io (gmap string JSON * Z) :=
  check_id [("requestor_id", requestor_id); ("secret_id", secret_id)];;
  auth ← signer requestor_id;
  response ← requests.request
    (get_secret_metadata_request secret_id) (Some auth);
  lift (raise_for_status response);;
  j ← lift (response_json response);
  metadata ← lift (dict_of_json j);
  etag ← lift (response_header response "ETag");
  version ← lift (int etag);
  mret (metadata, version).

Definition get_secret_content_request (secret_id : string) : Request.t :=
  {| Request.method := "GET";
     Request.url :=
       DELTA_URL +:+ RESOURCE_SECRETS +:+ "/" +:+ secret_id +:+ "/content";
     Request.params := ∅;
     Request.headers := ∅;
     Request.json := None |}.

Definition get_secret_content (requestor_id secret_id : string) : io string :=
  check_id [("requestor_id", requestor_id); ("secret_id", secret_id)];;
  auth ← signer requestor_id;
  response ← requests.request
    (get_secret_content_request secret_id) (Some auth);
  lift (raise_for_status response);;
  mret (Response.text response).

(** *** [update_secret_metadata], [update_identity_metadata] *)

Definition update_secret_metadata_request (secret_id : string)
    (metadata : gmap string string) (version : Z) : Request.t :=
  {| Request.method := "PUT";
     Request.url :=
       DELTA_URL +:+ RESOURCE_SECRETS +:+ "/" +:+ secret_id +:+ "/metadata";
     Request.params := ∅;
     Request.headers := {[ "if-match" := str version ]};
     Request.json := Some (json_of_dict metadata) |}.

Definition update_secret_metadata (requestor_id secret_id : string)
    (metadata : gmap string string) (version : Z) : io unit :=
  check_id [("requestor_id", requestor_id); ("secret_id", secret_id)];;
  check_metadata [("metadata", metadata)];;
  auth ← signer requestor_id;
  response ← requests.request
    (update_secret_metadata_request secret_id metadata version) (Some auth);
  lift (raise_for_status response).

Definition update_identity_metadata_request (identity_id : string)
    (metadata : gmap string string) (version : Z) : Request.t :=
  {| Request.method := "PUT";
     Request.url := DELTA_URL +:+ RESOURCE_IDENTITIES +:+ "/" +:+ identity_id;
     Request.params := ∅;
     Request.headers := {[ "if-match" := str version ]};
     Request.json := Some (JObj {[ "metadata" := json_of_dict metadata ]}) |}.

Definition update_identity_metadata (requestor_id identity_id : string)
    (metadata : gmap string string) (version : Z) : io unit :=
  check_id [("requestor_id", requestor_id); ("identity_id", identity_id)];;
  auth ← signer requestor_id;
  response ← requests.request
    (update_identity_metadata_request identity_id metadata version)
    (Some auth);
  lift (raise_for_status response).

(** *** [get_events] *)

Definition get_events_params (secret_id rsa_key_owner_id : option string)
    : gmap string pyval :=
  let params : gmap string pyval := {[ "purpose" := PStr "AUDIT" ]} in
  let params :=
    match secret_id with
    | Some s => <["secretId" := PStr s]> params
    | None => params
    end in
  match rsa_key_owner_id with
  | Some s => <["rsaKeyOwner" := PStr s]> params
  | None => params
  end.

Definition get_events_request (secret_id rsa_key_owner_id : option string)
    : Request.t :=
  {| Request.method := "GET";
     Request.url := DELTA_URL +:+ RESOURCE_EVENTS;
     Request.params := get_events_params secret_id rsa_key_owner_id;
     Request.headers := ∅;
     Request.json := None |}.

Definition get_events (requestor_id : string)
    (secret_id rsa_key_owner_id : option string) : io JSON :=
  check_id [("requestor_id", requestor_id)];;
  check_optional_id [("secret_id", secret_id);
                     ("rsa_key_owner_id", rsa_key_owner_id)];;
  auth ← signer requestor_id;
  response ← requests.request
    (get_events_request secret_id rsa_key_owner_id) (Some auth);
  lift (raise_for_status response);;
  lift (response_json response).

(** *** [get_secrets] *)

(** [lambda x: x is None or dict(x)] *)
Definition is_None_or_non_empty_dict (x : option (gmap string string))
    : bool :=
  match x with
  | None => true
  | Some d => bool_decide (d ≠ ∅)
  end.

(** [lambda x: isinstance(x, SecretLookupType)]: the argument is typed
    here, so the test always passes. *)
Definition is_SecretLookupType (x : SecretLookupType.t) : bool := true.

(** The dictionary built first, before [metadata] and [lookup_type] are
    looked at. *)
Definition get_secrets_initial_params
    (base_secret_id created_by rsa_key_owner_id : option string)
    (page page_size : option Z) : gmap string pyval :=
  {[ "page" := int_if_truthy page;
     "pageSize" := int_if_truthy page_size;
     "baseSecret" := str_or_None base_secret_id;
     "createdBy" := str_or_None created_by;
     "rsaKeyOwner" := str_or_None rsa_key_owner_id ]}.

(** [params.update(metadata_)] when [metadata is not None] *)
Definition get_secrets_metadata_params
    (base_secret_id created_by rsa_key_owner_id : option string)
    (metadata : option (gmap string string))
    (page page_size : option Z) : gmap string pyval :=
  let params := get_secrets_initial_params base_secret_id created_by
                  rsa_key_owner_id page page_size in
  match metadata with
  | Some m => metadata_ m ∪ params
  | None => params
  end.

Definition get_secrets_params
    (base_secret_id created_by rsa_key_owner_id : option string)
    (metadata : option (gmap string string))
    (lookup_type : SecretLookupType.t)
    (page page_size : option Z) : gmap string pyval :=
  let params := get_secrets_metadata_params base_secret_id created_by
                  rsa_key_owner_id metadata page page_size in
  match lookup_type with
  | SecretLookupType.base => <["baseSecret" := PStr "false"]> params
  | SecretLookupType.derived => <["baseSecret" := PStr "true"]> params
  | SecretLookupType.any => params
  end.

Definition get_secrets_request
    (base_secret_id created_by rsa_key_owner_id : option string)
    (metadata : option (gmap string string))
    (lookup_type : SecretLookupType.t)
    (page page_size : option Z) : Request.t :=
  {| Request.method := "GET";
     Request.url := DELTA_URL +:+ RESOURCE_SECRETS;
     Request.params :=
       get_secrets_params base_secret_id created_by rsa_key_owner_id
         metadata lookup_type page page_size;
     Request.headers := ∅;
     Request.json := None |}.

Definition get_secrets (requestor_id : string)
    (base_secret_id created_by rsa_key_owner_id : option string)
    (metadata : option (gmap string string))
    (lookup_type : SecretLookupType.t)
    (page page_size : option Z) : io JSON :=
  check_id [("requestor_id", requestor_id)];;
  check_optional_id [("base_secret_id", base_secret_id);
                     ("created_by", created_by);
                     ("rsa_key_owner_id", rsa_key_owner_id)];;
  check_optional_pagination [("page", page); ("page_size", page_size)];;
  check_arguments [("metadata", metadata)] is_None_or_non_empty_dict
    "must be a non-empty dict[str, str]";;
  check_arguments [("lookup_type", lookup_type)] is_SecretLookupType
    "must be an instance of SecretLookupType";;
  auth ← signer requestor_id;
  response ← requests.request
    (get_secrets_request base_secret_id created_by rsa_key_owner_id
       metadata lookup_type page page_size) (Some auth);
  lift (raise_for_status response);;
  lift (response_json response).
End ApiClient.
End ApiClient.

(** ** What a computation transmits *)

(** [silent m]: running [m] transmits nothing. *)
Definition silent {A : Type} (m : io A) : Prop := ∀ log, (m log).2 = log.

(** [issues m kw]: a run of [m] that returns has transmitted exactly one
    request, built from the keyword arguments [kw]; a run that raises has
    transmitted that request or nothing. *)
Definition issues {A : Type} (m : io A) (kw : Request.t) : Prop :=
  ∀ log,
    match m log with
    | (Return _, log') => ∃ w, log' = log ++ [mkSent kw w]
    | (Raise _, log') => log' = log ∨ ∃ w, log' = log ++ [mkSent kw w]
    end.

(** ** What a signed operation transmits and how it ends *)


(** [refused e log res]: the run raised [e] or a validation error, and
    transmitted nothing. *)
Definition refused {A : Type} (e : exception) (log : list Sent)
    (res : outcome A * list Sent) : Prop :=
  match res with
  | (Return _, _) => False
  | (Raise e', log') =>
      log' = log ∧ (e' = e ∨ ∃ name message, e' = ValidationError name message)
  end.

(** [raised res]: the run ended in an exception. *)
Definition raised {A : Type} (res : outcome A * list Sent) : Prop :=
  match res.1 with
  | Return _ => False
  | Raise _ => True
  end.




(** ** A test double

    One identity in the key store, a signer that adds the identity to the
    headers, and a server that answers every request with the same canned
    response, in the manner of the [responses] mocks of the unit tests. *)
Module Mock.
Definition requestor_id : string := "requestor_id".

Definition query_string (params : gmap string pyval) : string :=
  foldr (λ kv acc, kv.1 +:+ "=" +:+ kv.2 +:+ "&" +:+ acc) ""
    (map_to_list (encode_params params)).

Definition collaborators (response : Response.t) : Collaborators :=
  {| PrivateKey := string;
     get_private_signing_key := λ identity_id,
       if bool_decide (identity_id = requestor_id)
       then Return "signing-key"
       else Raise (KeyError identity_id);
     get_updated_headers := λ identity_id _ _ headers _ _,
       Return (<["cvt-identity-id" := identity_id]> headers);
     valid_id := λ x, bool_decide (x ≠ "");
     valid_pagination := λ n, 0 <? n;
     valid_metadata := λ _, true;
     prepare := λ kw,
       {| PreparedRequest.method := Request.method kw;
          PreparedRequest.url :=
            if bool_decide (encode_params (Request.params kw) = ∅)
            then Request.url kw
            else Request.url kw +:+ "?" +:+ query_string (Request.params kw);
          PreparedRequest.headers := Request.headers kw;
          PreparedRequest.body :=
            match Request.json kw with
            | Some _ => Some "<json>"
            | None => None
            end |};
     transport := λ _, Return response |}.


Definition response (status : Z) (headers : gmap string string)
    (body : option JSON) : Response.t :=
  {| Response.status_code := status;
     Response.headers := headers;
     Response.json := body;
     Response.text := "" |}.
End Mock.

(** * Properties *)

(** ** Integers as text: [int(str(n)) == n] *)

Lemma lstrip_no_space s : no_space s = true → lstrip s = s.
Proof. destruct s as [|c s]; simpl; [done|]. by destruct (is_space c). Qed.

Lemma rstrip_no_space s : no_space s = true → rstrip s = s.
Proof.
  induction s as [|c s IH]; simpl; [done|].
  destruct (is_space c); simpl; [done|]. intros Hs. rewrite IH by done.
  by destruct s.
Qed.

Lemma strip_no_space s : no_space s = true → strip s = s.
Proof.
  intros Hs. unfold strip. rewrite lstrip_no_space by done.
  by apply rstrip_no_space.
Qed.

Lemma pretty_N_char_digit (d : N) :
  (d < 10)%N →
  digit_of (pretty_N_char d) = Some (Z.of_N d)
  ∧ is_space (pretty_N_char d) = false.
Proof.
  intros Hd. destruct d as [|p]; [done|].
  repeat (destruct p as [p|p|]; try done; try lia).
Qed.

Lemma pretty_N_go_no_space (x : N) (s : string) :
  no_space s = true → no_space (pretty_N_go x s) = true.
Proof.
  revert s. induction (N.lt_wf_0 x) as [x _ IH]. intros s Hs.
  destruct (decide (x = 0%N)) as [->|Hx]; [by rewrite pretty_N_go_0|].
  rewrite pretty_N_go_step by lia. apply IH.
  - apply N.div_lt; lia.
  - simpl. rewrite Hs.
    by rewrite (proj2 (pretty_N_char_digit (x `mod` 10)%N
                         (N.mod_lt x 10 ltac:(done)))).
Qed.

Lemma digits_pretty_N_go (x : N) (s : string) :
  (0 < x)%N →
  digits 0 false (pretty_N_go x s) = digits (Z.of_N x) true s.
Proof.
  revert s. induction (N.lt_wf_0 x) as [x _ IH]. intros s Hx.
  rewrite pretty_N_go_step by done.
  pose proof (pretty_N_char_digit (x `mod` 10)%N (N.mod_lt x 10 ltac:(done)))
    as [Hdigit _].
  destruct (decide (x `div` 10 = 0)%N) as [Hdiv|Hdiv].
  - rewrite Hdiv, pretty_N_go_0. simpl. rewrite Hdigit.
    f_equal. pose proof (N.div_mod x 10 ltac:(done)) as Hx10.
    clear Hdigit IH. revert Hx10 Hdiv.
    generalize (x / 10)%N (x `mod` 10)%N. intros; lia.
  - rewrite IH; [|apply N.div_lt; lia|by apply N.neq_0_lt_0].
    cbn [digits]. rewrite Hdigit. f_equal.
    pose proof (N.div_mod x 10 ltac:(done)) as Hx10.
    clear Hdigit IH Hdiv. revert Hx10.
    generalize (x / 10)%N (x `mod` 10)%N. intros; lia.
Qed.

Lemma signed_digits_unsigned (s : string) (z : Z) :
  digits 0 false s = Some z → signed_digits s = Some z.
Proof.
  destruct s as [|c t]; [done|].
  destruct c as [[] [] [] [] [] [] [] []]; try done.
Qed.

Lemma int_of_str_unsigned (s : string) (z : Z) :
  no_space s = true → digits 0 false s = Some z → int_of_str s = Some z.
Proof.
  intros Hs Hz. unfold int_of_str. rewrite strip_no_space by done.
  by apply signed_digits_unsigned.
Qed.

Lemma int_of_str_minus (t : string) (z : Z) :
  no_space t = true → digits 0 false t = Some z →
  int_of_str (String "-" t) = Some (- z).
Proof.
  intros Ht Hz. unfold int_of_str. rewrite strip_no_space by done.
  unfold signed_digits. by rewrite Hz.
Qed.

Lemma str_pos (p : positive) : str (Z.pos p) = pretty_N_go (N.pos p) "".
Proof. reflexivity. Qed.

Lemma str_neg (p : positive) :
  str (Z.neg p) = String "-" (pretty_N_go (N.pos p) "").
Proof. reflexivity. Qed.

Lemma int_of_str_str (n : Z) : int_of_str (str n) = Some n.
Proof.
  destruct n as [|p|p].
  - done.
  - rewrite str_pos. apply int_of_str_unsigned.
    + by apply pretty_N_go_no_space.
    + by rewrite digits_pretty_N_go.
  - rewrite str_neg. apply (int_of_str_minus _ (Z.pos p)).
    + by apply pretty_N_go_no_space.
    + by rewrite digits_pretty_N_go.
Qed.

(** ** Running computations *)
Section running.
Context `{!Collaborators}.

Lemma run_ret {A : Type} (a : A) (log : list Sent) :
  mret (M := io) a log = (Return a, log).
Proof. reflexivity. Qed.

Lemma run_bind_Return {A B : Type} (m : io A) (k : A → io B)
    (log log' : list Sent) (a : A) :
  m log = (Return a, log') → (m ≫= k) log = k a log'.
Proof. intros Hm. unfold mbind, io_bind. by rewrite Hm. Qed.

Lemma run_bind_Raise {A B : Type} (m : io A) (k : A → io B)
    (log log' : list Sent) (e : exception) :
  m log = (Raise e, log') → (m ≫= k) log = (Raise e, log').
Proof. intros Hm. unfold mbind, io_bind. by rewrite Hm. Qed.

(** A validator transmits nothing, and either lets every argument through
    or raises a validation error with its own message. *)
Lemma check_arguments_run {A : Type} (arguments : list (string * A))
    (predicate : A → bool) (message : string) (log : list Sent) :
  (utils.check_arguments arguments predicate message log = (Return tt, log)
   ∧ Forall (λ a, predicate a.2 = true) arguments)
  ∨ (∃ name x, (name, x) ∈ arguments ∧ predicate x = false
     ∧ utils.check_arguments arguments predicate message log
       = (Raise (ValidationError name message), log)).
Proof.
  induction arguments as [|[name x] rest IH]; simpl.
  - left. by split.
  - destruct (predicate x) eqn:Hx.
    + destruct IH as [[Hrun Hall]|(name' & x' & Hin & Hx' & Hrun)].
      * left. split; [done|]. by constructor.
      * right. exists name', x'. split_and!; [by right|done..].
    + right. exists name, x. split_and!; [by left|done..].
Qed.

Lemma check_arguments_pass {A : Type} (arguments : list (string * A))
    (predicate : A → bool) (message : string) (log : list Sent) :
  Forall (λ a, predicate a.2 = true) arguments →
  utils.check_arguments arguments predicate message log = (Return tt, log).
Proof.
  induction 1 as [|[name x] rest Hx _ IH]; simpl; [done|].
  simpl in Hx. by rewrite Hx.
Qed.
End running.

(** ** Which request an operation puts on the wire *)
Section outbound.
Context `{!Collaborators}.

Lemma silent_lift {A : Type} (o : outcome A) : silent (lift o).
Proof. done. Qed.

Lemma silent_ret {A : Type} (a : A) : silent (mret a).
Proof. done. Qed.

Lemma silent_bind {A B : Type} (m : io A) (k : A → io B) :
  silent m → (∀ a, silent (k a)) → silent (m ≫= k).
Proof.
  intros Hm Hk log. unfold mbind, io_bind.
  specialize (Hm log). destruct (m log) as [[a|e] log']; simpl in *; subst.
  - apply Hk.
  - done.
Qed.

Lemma issues_check {A B : Type} (arguments : list (string * A))
    (predicate : A → bool) (message : string) (k : io B) (kw : Request.t) :
  issues k kw →
  issues (utils.check_arguments arguments predicate message;; k) kw.
Proof.
  intros Hk log.
  destruct (check_arguments_run arguments predicate message log)
    as [[Hrun _]|(name & x & _ & _ & Hrun)].
  - rewrite (run_bind_Return _ _ _ _ _ Hrun). apply Hk.
  - rewrite (run_bind_Raise _ _ _ _ _ Hrun). by left.
Qed.

Lemma issues_request {A : Type} (kw : Request.t)
    (auth : option (PreparedRequest.t → outcome PreparedRequest.t))
    (k : Response.t → io A) :
  (∀ response, silent (k response)) →
  issues (requests.request kw auth ≫= k) kw.
Proof.
  intros Hk log. unfold requests.request, requests.send, lift, mbind, io_bind.
  destruct (match auth with
            | Some hook => hook (prepare kw)
            | None => Return (prepare kw)
            end) as [r|e]; [|by left].
  destruct (transport r) as [response|e]; [|right; by eexists].
  specialize (Hk response (log ++ [mkSent kw r])).
  destruct (k response _) as [[a|e] log']; simpl in Hk; subst;
    [|right]; by eexists.
Qed.

Lemma issues_signed {A : Type} (identity_id : string) (kw : Request.t)
    (k : Response.t → io A) :
  (∀ response, silent (k response)) →
  issues (auth ← ApiClient.signer identity_id;
          requests.request kw (Some auth) ≫= k) kw.
Proof.
  intros Hk log. unfold ApiClient.signer, utils.check_id.
  destruct (check_arguments_run [("identity_id", identity_id)] valid_id
              "must be a valid identifier" log)
    as [[Hrun _]|(name & x & _ & _ & Hrun)];
    unfold mbind at 1; unfold io_bind at 1.
  - rewrite (run_bind_Return _ _ _ _ _ Hrun), run_ret.
    by apply issues_request.
  - rewrite (run_bind_Raise _ _ _ _ _ Hrun). by left.
Qed.

(** A signed call whose validators, key store and signer all succeed:
    the signed request is transmitted and the continuation receives what
    the transport answers. *)
Lemma signed_request_run {A : Type} (identity_id : string)
    (kw : Request.t) (k : Response.t → io A) (log : list Sent)
    (w : PreparedRequest.t) :
  valid_id identity_id = true →
  ApiClient.sign_request identity_id (prepare kw) = Return w →
  (auth ← ApiClient.signer identity_id;
   requests.request kw (Some auth) ≫= k) log
  = match transport w with
    | Return response => k response (log ++ [mkSent kw w])
    | Raise e => (Raise e, log ++ [mkSent kw w])
    end.
Proof.
  intros Hid Hsign. unfold ApiClient.signer, utils.check_id.
  unfold mbind at 1; unfold io_bind at 1.
  rewrite (run_bind_Return _ _ log log tt); last first.
  { apply check_arguments_pass. by repeat constructor. }
  rewrite run_ret.
  unfold requests.request, requests.send, lift, mbind, io_bind.
  rewrite Hsign. by destruct (transport w).
Qed.
End outbound.

Ltac solve_silent :=
  intros; repeat (apply silent_bind; intros);
  first [apply silent_lift | apply silent_ret].

Ltac solve_issues :=
  unfold utils.check_id, utils.check_optional_id,
    utils.check_optional_pagination, utils.check_metadata;
  repeat apply issues_check;
  first [apply issues_signed | apply issues_request];
  solve_silent.

(** ** The dictionaries built by the operations *)
Section params.
Context `{!Collaborators}.

Lemma metadata__lookup (metadata : gmap string string) (k : string) :
  ApiClient.metadata_ metadata !! ("metadata." +:+ k)
  = PStr <$> metadata !! k.
Proof.
  unfold ApiClient.metadata_.
  rewrite lookup_kmap by apply _. by rewrite lookup_fmap.
Qed.

Lemma metadata__lookup_other (metadata : gmap string string)
    (key : string) :
  (∀ k, key ≠ "metadata." +:+ k) →
  ApiClient.metadata_ metadata !! key = None.
Proof.
  intros Hkey. unfold ApiClient.metadata_.
  apply lookup_kmap_None; [apply _|].
  intros k Hk. by destruct (Hkey k).
Qed.

Lemma get_secrets_metadata_params_lookup b c r m page page_size
    (key : string) :
  (∀ k, key ≠ "metadata." +:+ k) →
  ApiClient.get_secrets_metadata_params b c r m page page_size !! key
  = ApiClient.get_secrets_initial_params b c r page page_size !! key.
Proof.
  intros Hkey. unfold ApiClient.get_secrets_metadata_params.
  destruct m as [m|]; [|done].
  by rewrite lookup_union_r by by apply metadata__lookup_other.
Qed.

Lemma get_secrets_initial_params_frame b b' c r page page_size
    (key : string) :
  key ≠ "baseSecret" →
  ApiClient.get_secrets_initial_params b c r page page_size !! key
  = ApiClient.get_secrets_initial_params b' c r page page_size !! key.
Proof.
  intros Hkey. unfold ApiClient.get_secrets_initial_params.
  rewrite !lookup_insert, !lookup_singleton.
  repeat case_decide; congruence.
Qed.

(** Once ["baseSecret"] is assigned, the [base_secret_id] argument has
    left no trace in the dictionary. *)
Lemma insert_baseSecret_frame b b' c r m page page_size (v : pyval) :
  <["baseSecret" := v]>
    (ApiClient.get_secrets_metadata_params b c r m page page_size)
  = <["baseSecret" := v]>
      (ApiClient.get_secrets_metadata_params b' c r m page page_size).
Proof.
  apply map_eq. intros key.
  destruct (decide (key = "baseSecret")) as [->|Hne].
  - by rewrite !lookup_insert_eq.
  - rewrite !lookup_insert_ne by done.
    unfold ApiClient.get_secrets_metadata_params. destruct m as [m|].
    + rewrite !lookup_union. f_equal.
      by apply get_secrets_initial_params_frame.
    + by apply get_secrets_initial_params_frame.
Qed.

Lemma get_identities_by_metadata_params_page metadata page page_size :
  ApiClient.get_identities_by_metadata_params metadata page page_size
    !! "page" = Some (int_if_truthy page).
Proof.
  unfold ApiClient.get_identities_by_metadata_params.
  by rewrite lookup_insert_ne, lookup_insert_eq.
Qed.

Lemma get_identities_by_metadata_params_pageSize metadata page page_size :
  ApiClient.get_identities_by_metadata_params metadata page page_size
    !! "pageSize" = Some (int_if_truthy page_size).
Proof. apply lookup_insert_eq. Qed.

Lemma get_secrets_params_page b c r m lookup_type page page_size :
  ApiClient.get_secrets_params b c r m lookup_type page page_size !! "page"
  = Some (int_if_truthy page).
Proof.
  unfold ApiClient.get_secrets_params.
  destruct lookup_type; rewrite ?lookup_insert_ne by done;
    by rewrite get_secrets_metadata_params_lookup.
Qed.

Lemma get_secrets_params_pageSize b c r m lookup_type page page_size :
  ApiClient.get_secrets_params b c r m lookup_type page page_size
    !! "pageSize" = Some (int_if_truthy page_size).
Proof.
  unfold ApiClient.get_secrets_params.
  destruct lookup_type; rewrite ?lookup_insert_ne by done;
    by rewrite get_secrets_metadata_params_lookup.
Qed.
End params.

(** ** Responses *)
Section responses.
Context `{!Collaborators}.

Lemma raise_for_status_error (response : Response.t) :
  400 ≤ Response.status_code response < 600 →
  raise_for_status response = Raise (HTTPError response).
Proof.
  intros [??]. unfold raise_for_status.
  by rewrite (proj2 (Z.leb_le _ _)), (proj2 (Z.ltb_lt _ _)).
Qed.

Lemma raise_for_status_ok (response : Response.t) :
  ¬ (400 ≤ Response.status_code response < 600) →
  raise_for_status response = Return tt.
Proof.
  intros Hs. unfold raise_for_status.
  destruct (400 <=? _) eqn:H1; [|done].
  destruct (_ <? 600) eqn:H2; [|done].
  apply Z.leb_le in H1. apply Z.ltb_lt in H2. lia.
Qed.

Lemma check_id_pass (arguments : list (string * string))
    (log : list Sent) :
  Forall (λ a, valid_id a.2 = true) arguments →
  utils.check_id arguments log = (Return tt, log).
Proof. apply check_arguments_pass. Qed.

(** A validator in front of a computation either steps aside or raises
    its validation error, with the log untouched. *)
Lemma check_then {A B : Type} (arguments : list (string * A))
    (predicate : A → bool) (message : string) (k : io B)
    (log : list Sent) :
  (utils.check_arguments arguments predicate message;; k) log = k log
  ∨ ∃ name,
      (utils.check_arguments arguments predicate message;; k) log
      = (Raise (ValidationError name message), log).
Proof.
  destruct (check_arguments_run arguments predicate message log)
    as [[Hrun _]|(name & x & _ & _ & Hrun)].
  - left. by rewrite (run_bind_Return _ _ _ _ _ Hrun).
  - right. exists name. by rewrite (run_bind_Raise _ _ _ _ _ Hrun).
Qed.

(** An identity id comes back from [register_identity] only when the
    response was not an error status and its JSON body is an object with
    an [identityId] member, which is the value returned. *)
Lemma register_identity_returns_identityId ek sk ext md log :
  match ApiClient.register_identity ek sk ext md log with
  | (Return identity_id, log') =>
      ∃ response m,
        transport (prepare (ApiClient.register_identity_request ek sk ext md))
          = Return response
        ∧ ¬ (400 ≤ Response.status_code response < 600)
        ∧ Response.json response = Some (JObj m)
        ∧ m !! "identityId" = Some identity_id
  | (Raise _, _) => True
  end.
Proof.
  unfold ApiClient.register_identity.
  unfold requests.request, requests.send, mbind, io_bind, lift, mret, io_ret.
  destruct (transport _) as [response|e] eqn:Htransport; [|done].
  unfold raise_for_status.
  destruct (_ && _) eqn:Hstatus; [done|].
  unfold response_json.
  destruct (Response.json response) as [j|] eqn:Hjson; [|done].
  destruct j as [| | | | |m]; try done. simpl.
  destruct (m !! "identityId") as [v|] eqn:Hv; [|done].
  exists response, m. split_and!; try done.
  intros [H1%Z.leb_le H2%Z.ltb_lt]. by rewrite H1, H2 in Hstatus.
Qed.
End responses.

(** ** What a call transmits when its arguments are accepted *)
Section accepted_calls.
Context `{!Collaborators}.

(** A signed call whose id is accepted and whose request the signer signs
    transmits exactly that signed request, whatever the transport answers
    and whatever a continuation that transmits nothing does with it. *)
Lemma signed_request_log {A : Type} (identity_id : string)
    (kw : Request.t) (k : Response.t → io A) (log : list Sent)
    (w : PreparedRequest.t) :
  valid_id identity_id = true →
  ApiClient.sign_request identity_id (prepare kw) = Return w →
  (∀ response, silent (k response)) →
  ((auth ← ApiClient.signer identity_id;
    requests.request kw (Some auth) ≫= k) log).2
  = log ++ [mkSent kw w].
Proof.
  intros Hid Hsign Hk. rewrite (signed_request_run _ _ _ _ w) by done.
  destruct (transport w) as [response|e]; [|done]. apply Hk.
Qed.

(** Signing leaves method, URL and body as [requests] prepared them. *)
Lemma sign_request_frame (identity_id : string) (r w : PreparedRequest.t) :
  ApiClient.sign_request identity_id r = Return w →
  PreparedRequest.method w = PreparedRequest.method r
  ∧ PreparedRequest.url w = PreparedRequest.url r
  ∧ PreparedRequest.body w = PreparedRequest.body r.
Proof.
  unfold ApiClient.sign_request.
  destruct (get_private_signing_key identity_id) as [key|e]; [|done].
  destruct (get_updated_headers _ _ _ _ _ _) as [h|e]; [|done].
  by intros [= <-].
Qed.

(** An accepted validator steps aside. *)
Lemma check_accepted {A B : Type} (arguments : list (string * A))
    (predicate : A → bool) (message : string) (k : io B)
    (log : list Sent) :
  Forall (λ a, predicate a.2 = true) arguments →
  (utils.check_arguments arguments predicate message;; k) log = k log.
Proof.
  intros Hall.
  by rewrite (run_bind_Return _ _ log log tt)
    by by apply check_arguments_pass.
Qed.
End accepted_calls.

(** [accept_validators]: steps over the validators in front of a
    computation, their arguments being accepted by hypothesis. *)
Ltac accept_validators :=
  unfold utils.check_id, utils.check_optional_id,
    utils.check_optional_pagination, utils.check_metadata;
  repeat (rewrite check_accepted by (repeat constructor; done)).

(** ** The operations of the client *)
Section claims.
Context `{!Collaborators}.

Import ApiClient.

(** C1: a call to [get_secrets] whose arguments pass the validators and
    whose request the signer signs transmits exactly one request, and in it
    the derived-secret filter is chosen by [lookup_type]:
    [SecretLookupType.base] sets the [baseSecret] query parameter to the
    string "false", [SecretLookupType.derived] sets it to "true", and
    [SecretLookupType.any] leaves the dictionary as it was built from the
    other arguments, so that [baseSecret] is whatever [base_secret_id] gave
    and is absent from the query when [base_secret_id] is [None].  Signing
    leaves the URL and its query as prepared. *)
Theorem get_secrets_lookup_type_filter
    requestor_id b c r m lookup_type page page_size log w :
  valid_id requestor_id = true →
  from_option valid_id true b = true →
  from_option valid_id true c = true →
  from_option valid_id true r = true →
  from_option valid_pagination true page = true →
  from_option valid_pagination true page_size = true →
  is_None_or_non_empty_dict m = true →
  sign_request requestor_id
    (prepare (get_secrets_request b c r m lookup_type page page_size))
    = Return w →
  let sent := get_secrets_request b c r m lookup_type page page_size in
  (get_secrets requestor_id b c r m lookup_type page page_size log).2
  = log ++ [mkSent sent w]
  ∧ PreparedRequest.url w = PreparedRequest.url (prepare sent)
  ∧ Request.params sent !! "baseSecret"
    = match lookup_type with
      | SecretLookupType.base => Some (PStr "false")
      | SecretLookupType.derived => Some (PStr "true")
      | SecretLookupType.any => Some (str_or_None b)
      end
  ∧ encode_params (Request.params sent) !! "baseSecret"
    = match lookup_type with
      | SecretLookupType.base => Some "false"
      | SecretLookupType.derived => Some "true"
      | SecretLookupType.any => b
      end
  ∧ match lookup_type with
    | SecretLookupType.any =>
        Request.params sent = get_secrets_metadata_params b c r m page page_size
    | _ => True
    end.
Proof.
  intros Hrequestor Hb Hc Hr Hpage Hpage_size Hm Hsign sent.
  assert (Request.params sent !! "baseSecret"
          = match lookup_type with
            | SecretLookupType.base => Some (PStr "false")
            | SecretLookupType.derived => Some (PStr "true")
            | SecretLookupType.any => Some (str_or_None b)
            end) as Hparam.
  { subst sent. simpl. unfold get_secrets_params.
    destruct lookup_type; rewrite ?lookup_insert_eq; try done.
    by rewrite get_secrets_metadata_params_lookup. }
  split_and!.
  - unfold get_secrets. accept_validators.
    apply signed_request_log; [done..|solve_silent].
  - by apply (sign_request_frame requestor_id).
  - done.
  - unfold encode_params. rewrite lookup_omap, Hparam.
    by destruct lookup_type, b.
  - by destruct lookup_type.
Qed.

(** C3: a call to [get_secrets] with a [base_secret_id] and a [lookup_type]
    of [base] or [derived], whose arguments pass the validators and whose
    request the signer signs, transmits exactly one request, in which the
    [baseSecret] query parameter is the string "false" or "true" of the
    lookup type: the supplied id is overwritten, the request being the one
    built for no [base_secret_id] at all.  Only with [SecretLookupType.any]
    does the id reach the query. *)
Theorem get_secrets_base_secret_id_overwritten
    requestor_id (base_secret_id : string) c r m lookup_type page page_size
    log w :
  lookup_type ≠ SecretLookupType.any →
  valid_id requestor_id = true →
  valid_id base_secret_id = true →
  from_option valid_id true c = true →
  from_option valid_id true r = true →
  from_option valid_pagination true page = true →
  from_option valid_pagination true page_size = true →
  is_None_or_non_empty_dict m = true →
  sign_request requestor_id
    (prepare
       (get_secrets_request (Some base_secret_id) c r m lookup_type page
          page_size))
    = Return w →
  let sent :=
    get_secrets_request (Some base_secret_id) c r m lookup_type page
      page_size in
  (get_secrets requestor_id (Some base_secret_id) c r m lookup_type page
     page_size log).2 = log ++ [mkSent sent w]
  ∧ PreparedRequest.url w = PreparedRequest.url (prepare sent)
  ∧ sent = get_secrets_request None c r m lookup_type page page_size
  ∧ Request.params sent !! "baseSecret"
    = match lookup_type with
      | SecretLookupType.derived => Some (PStr "true")
      | _ => Some (PStr "false")
      end
  ∧ encode_params (Request.params sent) !! "baseSecret"
    = match lookup_type with
      | SecretLookupType.derived => Some "true"
      | _ => Some "false"
      end
  ∧ Request.params
      (get_secrets_request (Some base_secret_id) c r m SecretLookupType.any
         page page_size) !! "baseSecret" = Some (PStr base_secret_id).
Proof.
  intros Hlookup Hrequestor Hb Hc Hr Hpage Hpage_size Hm Hsign sent.
  assert (Request.params sent !! "baseSecret"
          = match lookup_type with
            | SecretLookupType.derived => Some (PStr "true")
            | _ => Some (PStr "false")
            end) as Hparam.
  { subst sent. simpl. unfold get_secrets_params.
    destruct lookup_type; [apply lookup_insert_eq..|done]. }
  split_and!.
  - unfold get_secrets. accept_validators.
    apply signed_request_log; [done..|solve_silent].
  - by apply (sign_request_frame requestor_id).
  - subst sent. unfold get_secrets_request, get_secrets_params. f_equal.
    destruct lookup_type; [apply insert_baseSecret_frame..|done].
  - done.
  - unfold encode_params. rewrite lookup_omap, Hparam.
    by destruct lookup_type.
  - simpl. unfold get_secrets_params.
    by rewrite get_secrets_metadata_params_lookup.
Qed.

(** C4: every call to [register_identity] transmits exactly one request, a
    POST whose JSON payload always has [signingPublicKey] and
    [cryptoPublicKey]; the payload has an [externalId] key exactly when
    [external_id] is not [None], and a [metadata] key exactly when
    [metadata] is not [None]; no key is sent with a null value. *)
Theorem register_identity_omits_unset_fields ek sk ext md log :
  let payload := filter (λ kv, is_None kv.2 = false)
                   (register_identity_body ek sk ext md) in
  let sent := register_identity_request ek sk ext md in
  (register_identity ek sk ext md log).2
  = log ++ [mkSent sent (prepare sent)]
  ∧ Request.method sent = "POST"
  ∧ Request.json sent = Some (JObj payload)
  ∧ payload !! "signingPublicKey" = Some (JStr sk)
  ∧ payload !! "cryptoPublicKey" = Some (JStr ek)
  ∧ payload !! "externalId" = JStr <$> ext
  ∧ payload !! "metadata" = json_of_dict <$> md
  ∧ (∀ key, payload !! key ≠ Some JNull).
Proof.
  intros payload sent. split_and!.
  - subst sent.
    unfold register_identity, requests.request, requests.send,
      mbind, io_bind, lift, mret, io_ret, response_json.
    destruct (transport _) as [response|e]; [|done]. simpl.
    destruct (raise_for_status response); [|done]. simpl.
    destruct (Response.json response) as [j|]; [|done]. simpl.
    by destruct (getitem j "identityId").
  - done.
  - done.
  - subst payload. by destruct ext, md.
  - subst payload. by destruct ext, md.
  - subst payload. by destruct ext, md.
  - subst payload. by destruct ext, md.
  - intros key Hkey. by apply map_lookup_filter_Some in Hkey as [_ ?].
Qed.

(** C6: a call to [update_secret_metadata] or to
    [update_identity_metadata] whose arguments pass the validators and whose
    request the signer signs transmits exactly one request, a PUT made with
    the single header [If-Match] (header names are case-insensitive) of
    value [str(version)], the decimal text that [int] reads back as
    [version]; the identity update sends the body [{"metadata": metadata}],
    the secret update sends the metadata map itself.  The headers on the
    wire are those [get_updated_headers] computed from the prepared ones;
    they hold [If-Match: str(version)] whenever [requests] and the signer
    keep the headers they are given. *)
Theorem metadata_updates_are_conditional
    requestor_id id metadata version log w :
  (valid_id requestor_id = true →
   valid_id id = true →
   valid_metadata metadata = true →
   sign_request requestor_id
     (prepare (update_secret_metadata_request id metadata version))
     = Return w →
   let sent := update_secret_metadata_request id metadata version in
   (update_secret_metadata requestor_id id metadata version log).2
   = log ++ [mkSent sent w]
   ∧ Request.method sent = "PUT"
   ∧ PreparedRequest.method w = PreparedRequest.method (prepare sent)
   ∧ Request.headers sent = {[ lower "If-Match" := str version ]}
   ∧ Request.json sent = Some (JObj (JStr <$> metadata))
   ∧ (∃ signing_key,
        get_private_signing_key requestor_id = Return signing_key
        ∧ get_updated_headers requestor_id
            (PreparedRequest.method (prepare sent))
            (PreparedRequest.url (prepare sent))
            (PreparedRequest.headers (prepare sent))
            (PreparedRequest.body (prepare sent)) signing_key
          = Return (PreparedRequest.headers w))
   ∧ (Request.headers sent ⊆ PreparedRequest.headers (prepare sent) →
      PreparedRequest.headers (prepare sent) ⊆ PreparedRequest.headers w →
      PreparedRequest.headers w !! lower "If-Match" = Some (str version)))
  ∧ (valid_id requestor_id = true →
     valid_id id = true →
     sign_request requestor_id
       (prepare (update_identity_metadata_request id metadata version))
       = Return w →
     let sent := update_identity_metadata_request id metadata version in
     (update_identity_metadata requestor_id id metadata version log).2
     = log ++ [mkSent sent w]
     ∧ Request.method sent = "PUT"
     ∧ PreparedRequest.method w = PreparedRequest.method (prepare sent)
     ∧ Request.headers sent = {[ lower "If-Match" := str version ]}
     ∧ Request.json sent
       = Some (JObj {[ "metadata" := JObj (JStr <$> metadata) ]})
     ∧ (∃ signing_key,
          get_private_signing_key requestor_id = Return signing_key
          ∧ get_updated_headers requestor_id
              (PreparedRequest.method (prepare sent))
              (PreparedRequest.url (prepare sent))
              (PreparedRequest.headers (prepare sent))
              (PreparedRequest.body (prepare sent)) signing_key
            = Return (PreparedRequest.headers w))
     ∧ (Request.headers sent ⊆ PreparedRequest.headers (prepare sent) →
        PreparedRequest.headers (prepare sent) ⊆ PreparedRequest.headers w →
        PreparedRequest.headers w !! lower "If-Match" = Some (str version)))
  ∧ int_of_str (str version) = Some version.
Proof.
  assert (∀ sent : Request.t,
    sign_request requestor_id (prepare sent) = Return w →
    ∃ signing_key,
      get_private_signing_key requestor_id = Return signing_key
      ∧ get_updated_headers requestor_id
          (PreparedRequest.method (prepare sent))
          (PreparedRequest.url (prepare sent))
          (PreparedRequest.headers (prepare sent))
          (PreparedRequest.body (prepare sent)) signing_key
        = Return (PreparedRequest.headers w)) as Hheaders.
  { intros sent. unfold sign_request.
    destruct (get_private_signing_key requestor_id) as [key|e]; [|done].
    destruct (get_updated_headers _ _ _ _ _ _) as [h|e] eqn:Hh; [|done].
    intros [= <-]. by exists key. }
  assert (∀ sent : Request.t,
    Request.headers sent = {[ lower "If-Match" := str version ]} →
    Request.headers sent ⊆ PreparedRequest.headers (prepare sent) →
    PreparedRequest.headers (prepare sent) ⊆ PreparedRequest.headers w →
    PreparedRequest.headers w !! lower "If-Match" = Some (str version))
    as Hwire.
  { intros sent Hsent Hprepare Hkeep.
    eapply lookup_weaken; [|exact Hkeep].
    eapply lookup_weaken; [|exact Hprepare].
    rewrite Hsent. apply lookup_singleton_eq. }
  split_and!.
  - intros Hrequestor Hid Hmetadata Hsign sent. split_and!; try done.
    + unfold update_secret_metadata. accept_validators.
      apply signed_request_log; [done..|solve_silent].
    + by apply (sign_request_frame requestor_id).
    + by apply Hheaders.
    + by apply Hwire.
  - intros Hrequestor Hid Hsign sent. split_and!; try done.
    + unfold update_identity_metadata. accept_validators.
      apply signed_request_log; [done..|solve_silent].
    + by apply (sign_request_frame requestor_id).
    + by apply Hheaders.
    + by apply Hwire.
  - apply int_of_str_str.
Qed.

(** C7, as the code has it: when the server answers [get_secret_metadata]
    with a success status, a JSON object as body and an [ETag] header that
    reads as an integer, the operation returns the pair of the decoded
    body, as a dictionary, and that integer. *)
Theorem get_secret_metadata_returns_metadata_and_version
    requestor_id secret_id log w response m etag version :
  valid_id requestor_id = true →
  valid_id secret_id = true →
  sign_request requestor_id (prepare (get_secret_metadata_request secret_id))
    = Return w →
  transport w = Return response →
  200 ≤ Response.status_code response < 300 →
  Response.json response = Some (JObj m) →
  Response.headers response !! lower "ETag" = Some etag →
  int_of_str etag = Some version →
  get_secret_metadata requestor_id secret_id log
  = (Return (m, version),
     log ++ [mkSent (get_secret_metadata_request secret_id) w]).
Proof.
  intros Hrequestor Hsecret Hsign Htransport Hstatus Hjson Hetag Hversion.
  unfold get_secret_metadata.
  rewrite (run_bind_Return _ _ log log tt)
    by (apply check_id_pass; by repeat constructor).
  rewrite (signed_request_run _ _ _ _ w) by done.
  rewrite Htransport.
  unfold mbind, io_bind, lift, response_json, response_header, int.
  rewrite raise_for_status_ok by lia.
  by rewrite Hjson, Hetag, Hversion.
Qed.

(** C2, as the code has it: when the server answers a metadata update with
    a 4xx or 5xx status, 409 Conflict and 412 Precondition Failed among
    them, [update_secret_metadata] raises the [HTTPError] of
    [raise_for_status], carrying the response, and so does
    [update_identity_metadata]; the conflict is told from other failures by
    the status code of that response, not by the type of the error. *)
Theorem metadata_update_error_status_raises_HTTPError
    requestor_id id metadata version log w response :
  (valid_id requestor_id = true →
   valid_id id = true →
   valid_metadata metadata = true →
   sign_request requestor_id
     (prepare (update_secret_metadata_request id metadata version))
     = Return w →
   transport w = Return response →
   400 ≤ Response.status_code response < 600 →
   update_secret_metadata requestor_id id metadata version log
   = (Raise (HTTPError response),
      log ++ [mkSent (update_secret_metadata_request id metadata version)
                w])
   ∧ type_name (HTTPError response) = "HTTPError")
  ∧ (valid_id requestor_id = true →
     valid_id id = true →
     sign_request requestor_id
       (prepare (update_identity_metadata_request id metadata version))
       = Return w →
     transport w = Return response →
     400 ≤ Response.status_code response < 600 →
     update_identity_metadata requestor_id id metadata version log
     = (Raise (HTTPError response),
        log ++ [mkSent
                  (update_identity_metadata_request id metadata version) w])
     ∧ type_name (HTTPError response) = "HTTPError").
Proof.
  split.
  - intros Hrequestor Hid Hmetadata Hsign Htransport Hstatus.
    split; [|done].
    unfold update_secret_metadata. accept_validators.
    rewrite (signed_request_run _ _ _ _ w) by done.
    rewrite Htransport. unfold lift. by rewrite raise_for_status_error.
  - intros Hrequestor Hid Hsign Htransport Hstatus.
    split; [|done].
    unfold update_identity_metadata. accept_validators.
    rewrite (signed_request_run _ _ _ _ w) by done.
    rewrite Htransport. unfold lift. by rewrite raise_for_status_error.
Qed.

(** C5, as the code has it: when the response to [register_identity] has a
    4xx or 5xx status, the operation raises [HTTPError] carrying the
    response and returns no identity id.  In general a call either raises
    or returns a complete result: the id it returns is the [identityId]
    member of the JSON object of a response that is not an error. *)
Theorem register_identity_raises_on_error_status
    ek sk ext md log response :
  transport (prepare (register_identity_request ek sk ext md))
    = Return response →
  400 ≤ Response.status_code response < 600 →
  register_identity ek sk ext md log
  = (Raise (HTTPError response),
     log ++ [mkSent (register_identity_request ek sk ext md)
               (prepare (register_identity_request ek sk ext md))])
  ∧ ∀ ek' sk' ext' md' log',
      match register_identity ek' sk' ext' md' log' with
      | (Return identity_id, _) =>
          ∃ response' m,
            transport (prepare (register_identity_request ek' sk' ext' md'))
              = Return response'
            ∧ ¬ (400 ≤ Response.status_code response' < 600)
            ∧ Response.json response' = Some (JObj m)
            ∧ m !! "identityId" = Some identity_id
      | (Raise _, _) => True
      end.
Proof.
  intros Htransport Hstatus. split.
  - unfold register_identity.
    unfold requests.request, requests.send, mbind, io_bind, lift.
    rewrite Htransport. by rewrite raise_for_status_error.
  - intros. apply register_identity_returns_identityId.
Qed.


(** C9: [signer(identity_id)] transmits nothing and, for a valid id, gives
    the function [sign_request]; applied to a prepared request [r], that
    function either returns [r] with the same method, URL and body and with
    the headers computed by [get_updated_headers], or raises what the key
    store or [get_updated_headers] raised. *)
Theorem sign_request_changes_headers_only
    identity_id (r : PreparedRequest.t) log :
  match signer identity_id log with
  | (Return sign, log') => log' = log ∧ sign = sign_request identity_id
  | (Raise e, log') => log' = log ∧ valid_id identity_id = false
  end
  ∧ match sign_request identity_id r with
    | Return r' =>
        PreparedRequest.method r' = PreparedRequest.method r
        ∧ PreparedRequest.url r' = PreparedRequest.url r
        ∧ PreparedRequest.body r' = PreparedRequest.body r
        ∧ ∃ signing_key,
            get_private_signing_key identity_id = Return signing_key
            ∧ get_updated_headers identity_id (PreparedRequest.method r)
                (PreparedRequest.url r) (PreparedRequest.headers r)
                (PreparedRequest.body r) signing_key
              = Return (PreparedRequest.headers r')
    | Raise e =>
        get_private_signing_key identity_id = Raise e
        ∨ ∃ signing_key,
            get_private_signing_key identity_id = Return signing_key
            ∧ get_updated_headers identity_id (PreparedRequest.method r)
                (PreparedRequest.url r) (PreparedRequest.headers r)
                (PreparedRequest.body r) signing_key
              = Raise e
    end.
Proof.
  split.
  - unfold signer, utils.check_id, mbind, io_bind. simpl.
    by destruct (valid_id identity_id).
  - unfold sign_request.
    destruct (get_private_signing_key identity_id) as [signing_key|e];
      [|by left].
    destruct (get_updated_headers _ _ _ _ _ _) as [h|e] eqn:Hh.
    + split_and!; [done..|]. by exists signing_key.
    + right. by exists signing_key.
Qed.


End claims.

(** ** The operations against the test double *)

(** A 412 answer to a metadata update surfaces as the same [HTTPError] as a
    500 answer: no error type of its own marks the version conflict. *)
Lemma version_conflict_is_a_plain_HTTPError :
  let conflict := Mock.response 412 ∅ None in
  let failure := Mock.response 500 ∅ None in
  let update_secret response :=
    (@ApiClient.update_secret_metadata (Mock.collaborators response)
       Mock.requestor_id "secret-1" {[ "name" := "b" ]} 1 []).1 in
  let update_identity response :=
    (@ApiClient.update_identity_metadata (Mock.collaborators response)
       Mock.requestor_id "identity-1" {[ "name" := "b" ]} 1 []).1 in
  Response.status_code conflict = 412
  ∧ update_secret conflict = Raise (HTTPError conflict)
  ∧ update_identity conflict = Raise (HTTPError conflict)
  ∧ update_secret failure = Raise (HTTPError failure)
  ∧ update_identity failure = Raise (HTTPError failure)
  ∧ type_name (HTTPError conflict) = type_name (HTTPError failure)
  ∧ ¬ (∃ e, update_secret conflict = Raise e
            ∧ type_name e = "VersionConflict")
  ∧ ¬ (∃ e, update_identity conflict = Raise e
            ∧ type_name e = "VersionConflict").
Proof.
  intros conflict failure update_secret update_identity.
  assert (update_secret conflict = Raise (HTTPError conflict)) as Hs
    by reflexivity.
  assert (update_identity conflict = Raise (HTTPError conflict)) as Hi
    by reflexivity.
  split_and!; try reflexivity.
  - intros (e & He & Hname). rewrite Hs in He. by simplify_eq.
  - intros (e & He & Hname). rewrite Hi in He. by simplify_eq.
Qed.

Lemma metadata_update_error_status_raises_HTTPError_witness :
  let conflict := Mock.response 412 ∅ None in
  400 ≤ Response.status_code conflict < 600
  ∧ (@ApiClient.update_secret_metadata (Mock.collaborators conflict)
       Mock.requestor_id "secret-1" {[ "name" := "b" ]} 1 []).1
    = Raise (HTTPError conflict)
  ∧ (@ApiClient.update_identity_metadata (Mock.collaborators conflict)
       Mock.requestor_id "secret-1" {[ "name" := "b" ]} 1 []).1
    = Raise (HTTPError conflict).
Proof.
  intros conflict.
  assert (400 ≤ Response.status_code conflict < 600) as Hstatus
    by (simpl; lia).
  split; [exact Hstatus|].
  destruct (@metadata_update_error_status_raises_HTTPError
              (Mock.collaborators conflict) Mock.requestor_id "secret-1"
              {[ "name" := "b" ]} 1 []
              {| PreparedRequest.method := "PUT";
                 PreparedRequest.url :=
                   "https://delta.covata.io/v1/secrets/secret-1/metadata";
                 PreparedRequest.headers :=
                   {[ "if-match" := "1";
                      "cvt-identity-id" := Mock.requestor_id ]};
                 PreparedRequest.body := Some "<json>" |} conflict)
    as [Hsecret _].
  destruct (@metadata_update_error_status_raises_HTTPError
              (Mock.collaborators conflict) Mock.requestor_id "secret-1"
              {[ "name" := "b" ]} 1 []
              {| PreparedRequest.method := "PUT";
                 PreparedRequest.url :=
                   "https://delta.covata.io/v1/identities/secret-1";
                 PreparedRequest.headers :=
                   {[ "if-match" := "1";
                      "cvt-identity-id" := Mock.requestor_id ]};
                 PreparedRequest.body := Some "<json>" |} conflict)
    as [_ Hidentity].
  split.
  - exact (f_equal fst
             (proj1 (Hsecret eq_refl eq_refl eq_refl eq_refl eq_refl
                       Hstatus))).
  - exact (f_equal fst
             (proj1 (Hidentity eq_refl eq_refl eq_refl eq_refl Hstatus))).
Defined.

(** A 300 answer carrying an [identityId] is not in the 2xx range, and
    [register_identity] returns the id all the same. *)
Lemma register_identity_returns_on_status_300 :
  let response :=
    Mock.response 300 ∅ (Some (JObj {[ "identityId" := JStr "abc" ]})) in
  ¬ (200 ≤ Response.status_code response < 300)
  ∧ (@ApiClient.register_identity (Mock.collaborators response)
       "encryption-key" "signing-key" None None []).1
    = Return (JStr "abc").
Proof.
  intros response. split; [simpl; lia|reflexivity].
Qed.

Lemma register_identity_raises_on_error_status_witness :
  let response := Mock.response 400 ∅ None in
  400 ≤ Response.status_code response < 600
  ∧ (@ApiClient.register_identity (Mock.collaborators response)
       "encryption-key" "signing-key" None None []).1
    = Raise (HTTPError response).
Proof.
  intros response.
  assert (400 ≤ Response.status_code response < 600) as Hstatus
    by (simpl; lia).
  split; [exact Hstatus|].
  exact (f_equal fst
           (proj1 (@register_identity_raises_on_error_status
                     (Mock.collaborators response) "encryption-key"
                     "signing-key" None None [] response eq_refl Hstatus))).
Defined.

Lemma get_secret_metadata_returns_metadata_and_version_witness :
  let response :=
    Mock.response 200 {[ "etag" := "2" ]}
      (Some (JObj {[ "name" := JStr "a" ]})) in
  200 ≤ Response.status_code response < 300
  ∧ (@ApiClient.get_secret_metadata (Mock.collaborators response)
       Mock.requestor_id "secret-1" []).1
    = Return ({[ "name" := JStr "a" ]}, 2).
Proof.
  intros response.
  assert (200 ≤ Response.status_code response < 300) as Hstatus
    by (simpl; lia).
  split; [exact Hstatus|].
  exact (f_equal fst
           (@get_secret_metadata_returns_metadata_and_version
              (Mock.collaborators response) Mock.requestor_id "secret-1" []
              _ response {[ "name" := JStr "a" ]} "2" 2
              eq_refl eq_refl eq_refl eq_refl Hstatus eq_refl eq_refl
              eq_refl)).
Defined.

(** A success answer with a JSON object but no [ETag] header: the call
    raises [KeyError] and returns no pair. *)
Lemma get_secret_metadata_raises_without_ETag :
  let response :=
    Mock.response 200 ∅ (Some (JObj {[ "name" := JStr "a" ]})) in
  200 ≤ Response.status_code response < 300
  ∧ (@ApiClient.get_secret_metadata (Mock.collaborators response)
       Mock.requestor_id "secret-1" []).1
    = Raise (KeyError "etag").
Proof.
  intros response. split; [simpl; lia|reflexivity].
Qed.

Lemma get_secrets_lookup_type_filter_witness :
  let response := Mock.response 200 ∅ (Some (JList [])) in
  let sent :=
    ApiClient.get_secrets_request (Some "secret-0") None None None
      SecretLookupType.derived None None in
  ∃ w,
    (@ApiClient.get_secrets (Mock.collaborators response) Mock.requestor_id
       (Some "secret-0") None None None SecretLookupType.derived None None
       []).2 = [mkSent sent w]
    ∧ encode_params (Request.params sent) !! "baseSecret" = Some "true".
Proof.
  intros response sent. eexists.
  destruct (@get_secrets_lookup_type_filter
              (Mock.collaborators response) Mock.requestor_id
              (Some "secret-0") None None None SecretLookupType.derived
              None None [] _
              eq_refl eq_refl eq_refl eq_refl eq_refl eq_refl eq_refl
              eq_refl)
    as (Hlog & _ & _ & Hquery & _).
  split; [exact Hlog|exact Hquery].
Defined.

Lemma get_secrets_base_secret_id_overwritten_witness :
  let response := Mock.response 200 ∅ (Some (JList [])) in
  ∃ w,
    (@ApiClient.get_secrets (Mock.collaborators response) Mock.requestor_id
       (Some "secret-0") None None None SecretLookupType.base None None
       []).2
    = [mkSent
         (ApiClient.get_secrets_request None None None None
            SecretLookupType.base None None) w].
Proof.
  intros response. eexists.
  destruct (@get_secrets_base_secret_id_overwritten
              (Mock.collaborators response) Mock.requestor_id
              "secret-0" None None None SecretLookupType.base
              None None [] _
              ltac:(discriminate)
              eq_refl eq_refl eq_refl eq_refl eq_refl eq_refl eq_refl
              eq_refl)
    as (Hlog & _ & Hsent & _).
  rewrite <- Hsent. exact Hlog.
Defined.

Lemma metadata_updates_are_conditional_witness :
  let response := Mock.response 204 ∅ None in
  ∃ w_secret w_identity,
    (@ApiClient.update_secret_metadata (Mock.collaborators response)
       Mock.requestor_id "secret-1" {[ "name" := "b" ]} 3 []).2
    = [mkSent
         (ApiClient.update_secret_metadata_request "secret-1"
            {[ "name" := "b" ]} 3) w_secret]
    ∧ PreparedRequest.headers w_secret !! "if-match" = Some "3"
    ∧ (@ApiClient.update_identity_metadata (Mock.collaborators response)
         Mock.requestor_id "identity-1" {[ "name" := "b" ]} 3 []).2
      = [mkSent
           (ApiClient.update_identity_metadata_request "identity-1"
              {[ "name" := "b" ]} 3) w_identity]
    ∧ PreparedRequest.headers w_identity !! "if-match" = Some "3".
Proof.
  intros response. do 2 eexists.
  destruct (@metadata_updates_are_conditional
              (Mock.collaborators response) Mock.requestor_id "secret-1"
              {[ "name" := "b" ]} 3 []
              {| PreparedRequest.method := "PUT";
                 PreparedRequest.url := "https://delta.covata.io/v1/secrets/secret-1/metadata";
                 PreparedRequest.headers := {[ "if-match" := "3"; "cvt-identity-id" := Mock.requestor_id ]};
                 PreparedRequest.body := Some "<json>" |}) as (Hsecret & _ & _).
  destruct (Hsecret eq_refl eq_refl eq_refl eq_refl)
    as (Hlog_s & _).
  destruct (@metadata_updates_are_conditional
              (Mock.collaborators response) Mock.requestor_id "identity-1"
              {[ "name" := "b" ]} 3 []
              {| PreparedRequest.method := "PUT";
                 PreparedRequest.url := "https://delta.covata.io/v1/identities/identity-1";
                 PreparedRequest.headers := {[ "if-match" := "3"; "cvt-identity-id" := Mock.requestor_id ]};
                 PreparedRequest.body := Some "<json>" |}) as (_ & Hidentity & _).
  destruct (Hidentity eq_refl eq_refl eq_refl)
    as (Hlog_i & _).
  split_and!.
  - exact Hlog_s.
  - reflexivity.
  - exact Hlog_i.
  - reflexivity.
Defined.



(** The query of a secret lookup restricted to base secrets: the id given as
    [base_secret_id] is gone, the page number 0 is left out. *)
Example get_secrets_base_query :
  encode_params
    (Request.params
       (ApiClient.get_secrets_request (Some "secret-0") None
          (Some "identity-2") (Some {[ "name" := "a" ]})
          SecretLookupType.base (Some 0) (Some 5)))
  = {[ "baseSecret" := "false"; "rsaKeyOwner" := "identity-2";
       "metadata.name" := "a"; "pageSize" := "5" ]}.
Proof. vm_compute. reflexivity. Qed.

(** Registration without optional fields posts the two public keys only. *)
Example register_identity_minimal_payload :
  Request.json
    (ApiClient.register_identity_request "encryption-key" "signing-key"
       None None)
  = Some (JObj {[ "signingPublicKey" := JStr "signing-key";
                  "cryptoPublicKey" := JStr "encryption-key" ]}).
Proof. vm_compute. reflexivity. Qed.

(** An empty metadata filter is refused before anything is transmitted. *)
Example get_identities_by_metadata_empty :
  @ApiClient.get_identities_by_metadata
    (Mock.collaborators (Mock.response 200 ∅ (Some (JList []))))
    Mock.requestor_id (Some ∅) None None []
  = (Raise (ValidationError "metadata" "must be a non-empty dict[str, str]"),
     []).
Proof. vm_compute. reflexivity. Qed.

(** The signer of the test double keeps method, URL and body. *)
Example sign_request_mock :
  @ApiClient.sign_request (Mock.collaborators (Mock.response 200 ∅ None))
    Mock.requestor_id
    {| PreparedRequest.method := "PUT";
       PreparedRequest.url := "https://delta.covata.io/v1/secrets/s/metadata";
       PreparedRequest.headers := {[ "if-match" := "1" ]};
       PreparedRequest.body := Some "<json>" |}
  = Return
      {| PreparedRequest.method := "PUT";
         PreparedRequest.url := "https://delta.covata.io/v1/secrets/s/metadata";
         PreparedRequest.headers :=
           {[ "if-match" := "1"; "cvt-identity-id" := Mock.requestor_id ]};
         PreparedRequest.body := Some "<json>" |}.
Proof. vm_compute. reflexivity. Qed.

(** ** How a signed call ends *)
Section signed_calls.
Context `{!Collaborators}.

(** The four ways a signed call can go: the signer's own validator rejects
    the id; signing raises; the transport raises; the transport answers and
    the continuation runs. *)
Lemma signed_request_cases {A : Type} (identity_id : string)
    (kw : Request.t) (k : Response.t → io A) (log : list Sent) :
  let m := auth ← ApiClient.signer identity_id;
           requests.request kw (Some auth) ≫= k in
  (∃ name message, m log = (Raise (ValidationError name message), log))
  ∨ (∃ e, ApiClient.sign_request identity_id (prepare kw) = Raise e
          ∧ m log = (Raise e, log))
  ∨ (∃ w e, ApiClient.sign_request identity_id (prepare kw) = Return w
            ∧ transport w = Raise e
            ∧ m log = (Raise e, log ++ [mkSent kw w]))
  ∨ (∃ w response,
       ApiClient.sign_request identity_id (prepare kw) = Return w
       ∧ transport w = Return response
       ∧ m log = k response (log ++ [mkSent kw w])).
Proof.
  intros m.
  assert (m log
          = if valid_id identity_id
            then match ApiClient.sign_request identity_id (prepare kw) with
                 | Return w =>
                     match transport w with
                     | Return response =>
                         k response (log ++ [mkSent kw w])
                     | Raise e => (Raise e, log ++ [mkSent kw w])
                     end
                 | Raise e => (Raise e, log)
                 end
            else (Raise (ValidationError "identity_id"
                           "must be a valid identifier"), log)) as ->.
  { subst m.
    unfold ApiClient.signer, utils.check_id, requests.request, requests.send,
      lift, mbind, io_bind, mret, io_ret, raise. simpl.
    destruct (valid_id identity_id); simpl; [|done].
    destruct (ApiClient.sign_request identity_id (prepare kw)) as [w|e];
      simpl; [|done].
    by destruct (transport w). }
  destruct (valid_id identity_id); [|left; by eauto].
  destruct (ApiClient.sign_request identity_id (prepare kw)) as [w|e].
  - destruct (transport w) as [response|e] eqn:Htransport.
    + do 3 right. by exists w, response.
    + do 2 right. left. by exists w, e.
  - right. left. by exists e.
Qed.


End signed_calls.

(** [step_validators log tac]: case analysis on each validator in front of
    the computation run on [log]; [tac] closes the goal where a validator
    raised. *)
Ltac step_validators log tac :=
  unfold utils.check_id, utils.check_optional_id,
    utils.check_optional_pagination, utils.check_metadata;
  repeat match goal with
  | |- context [(utils.check_arguments ?a ?p ?msg;; ?k) log] =>
      let name := fresh "name" in
      destruct (check_then a p msg k log) as [-> | (name & ->)];
        [|solve [tac]]
  end.

(** [step_signed log tac]: then the case analysis of the signed call. *)
Ltac step_signed log :=
  match goal with
  | |- context [(ApiClient.signer ?id ≫= ?f) log] =>
      match f with
      | (λ auth, requests.request ?kw (Some auth) ≫= ?k) =>
          destruct (signed_request_cases id kw k log)
            as [(?name & ?message & ->)
               |[(?e & ?Hsign & ->)
                |[(?w & ?e & ?Hsign & ?Htransport & ->)
                 |(?w & ?response & ?Hsign & ?Htransport & ->)]]]
      end
  end.

Section signed_tails.
Context `{!Collaborators}.


Lemma raise_for_status_cases (response : Response.t) :
  (400 ≤ Response.status_code response < 600
   ∧ raise_for_status response = Raise (HTTPError response))
  ∨ (¬ (400 ≤ Response.status_code response < 600)
     ∧ raise_for_status response = Return tt).
Proof.
  destruct (decide (400 ≤ Response.status_code response < 600)) as [Hs|Hs].
  - left. split; [done|]. by apply raise_for_status_error.
  - right. split; [done|]. by apply raise_for_status_ok.
Qed.
End signed_tails.



Ltac run_tail :=
  unfold mbind, io_bind, lift, mret, io_ret, response_json, response_header,
    int.

(** ** Strings spliced into URLs and query keys *)

Lemma append_cons (c : ascii) (s t : string) :
  String c s +:+ t = String c (s +:+ t).
Proof. reflexivity. Qed.

Lemma append_assoc (s t u : string) : (s +:+ t) +:+ u = s +:+ (t +:+ u).
Proof.
  induction s as [|c s IH]; [done|]. rewrite !append_cons. by rewrite IH.
Qed.

Lemma length_append (s t : string) :
  String.length (s +:+ t) = (String.length s + String.length t)%nat.
Proof.
  induction s as [|c s IH]; [done|]. rewrite append_cons. simpl.
  by rewrite IH.
Qed.

Lemma append_inj_l (s1 s2 t : string) : s1 +:+ t = s2 +:+ t → s1 = s2.
Proof.
  revert s2. induction s1 as [|c s1 IH]; intros [|c' s2] Heq.
  - done.
  - apply (f_equal String.length) in Heq.
    rewrite !length_append in Heq. simpl in Heq. lia.
  - apply (f_equal String.length) in Heq.
    rewrite !length_append in Heq. simpl in Heq. lia.
  - rewrite !append_cons in Heq. simplify_eq. f_equal. by apply IH.
Qed.

(** ** Further properties of the operations *)
Section extras.
Context `{!Collaborators}.

Import ApiClient.



(** X3: when the key store has no signing key for [requestor_id] (the
    lookup raises [e]), every signed operation raises, with [e] or with a
    validation error, and transmits nothing: a request that cannot be
    signed never leaves unsigned. *)
Theorem missing_signing_key_transmits_nothing
    requestor_id e log identity_id secret_id content encryption_details
    base_secret_id rsa_key_owner_id metadata version
    optional_secret_id optional_base_secret_id optional_created_by
    optional_rsa_key_owner_id optional_metadata lookup_type page page_size :
  get_private_signing_key requestor_id = Raise e →
  refused e log (get_identity requestor_id identity_id log)
  ∧ refused e log
      (get_identities_by_metadata requestor_id (Some metadata) page page_size
         log)
  ∧ refused e log (create_secret requestor_id content encryption_details log)
  ∧ refused e log
      (share_secret requestor_id content encryption_details base_secret_id
         rsa_key_owner_id log)
  ∧ refused e log (delete_secret requestor_id secret_id log)
  ∧ refused e log (get_secret requestor_id secret_id log)
  ∧ refused e log (get_secret_metadata requestor_id secret_id log)
  ∧ refused e log (get_secret_content requestor_id secret_id log)
  ∧ refused e log
      (update_secret_metadata requestor_id secret_id metadata version log)
  ∧ refused e log
      (update_identity_metadata requestor_id identity_id metadata version log)
  ∧ refused e log
      (get_events requestor_id optional_secret_id optional_rsa_key_owner_id
         log)
  ∧ refused e log
      (get_secrets requestor_id optional_base_secret_id optional_created_by
         optional_rsa_key_owner_id optional_metadata lookup_type page
         page_size log).
Proof.
  intros Hkey.
  assert (∀ r, sign_request requestor_id r = Raise e) as Hsign'.
  { intros r. unfold sign_request. by rewrite Hkey. }
  split_and!;
    [unfold get_identity | unfold get_identities_by_metadata
    |unfold create_secret | unfold share_secret | unfold delete_secret
    |unfold get_secret | unfold get_secret_metadata
    |unfold get_secret_content | unfold update_secret_metadata
    |unfold update_identity_metadata | unfold get_events
    |unfold get_secrets];
    step_validators log ltac:(split; [done|right; by eauto]);
    cbn beta iota; step_signed log;
    try match goal with
        | Hs : sign_request requestor_id _ = _ |- _ =>
            rewrite Hsign' in Hs; simplify_eq
        end;
    (split; [done|]); first [by left | right; by eauto].
Qed.

(** X4: no operation returns a value from an error response: when the
    server answers with 4xx or 5xx statuses only, every operation raises,
    whatever the body of the response holds. *)
Theorem error_status_never_returns
    requestor_id log ek sk ext md identity_id secret_id content
    encryption_details base_secret_id rsa_key_owner_id metadata version
    optional_secret_id optional_base_secret_id optional_created_by
    optional_rsa_key_owner_id optional_metadata lookup_type page page_size :
  (∀ r response,
     transport r = Return response →
     400 ≤ Response.status_code response < 600) →
  raised (register_identity ek sk ext md log)
  ∧ raised (get_identity requestor_id identity_id log)
  ∧ raised
      (get_identities_by_metadata requestor_id (Some metadata) page page_size
         log)
  ∧ raised (create_secret requestor_id content encryption_details log)
  ∧ raised
      (share_secret requestor_id content encryption_details base_secret_id
         rsa_key_owner_id log)
  ∧ raised (delete_secret requestor_id secret_id log)
  ∧ raised (get_secret requestor_id secret_id log)
  ∧ raised (get_secret_metadata requestor_id secret_id log)
  ∧ raised (get_secret_content requestor_id secret_id log)
  ∧ raised
      (update_secret_metadata requestor_id secret_id metadata version log)
  ∧ raised
      (update_identity_metadata requestor_id identity_id metadata version log)
  ∧ raised
      (get_events requestor_id optional_secret_id optional_rsa_key_owner_id
         log)
  ∧ raised
      (get_secrets requestor_id optional_base_secret_id optional_created_by
         optional_rsa_key_owner_id optional_metadata lookup_type page
         page_size log).
Proof.
  intros Herror. split.
  { unfold raised, register_identity, requests.request, requests.send.
    run_tail.
    destruct (transport _) as [response|e] eqn:Htransport; [|done]. simpl.
    by rewrite raise_for_status_error by by eapply Herror. }
  split_and!;
    [unfold get_identity | unfold get_identities_by_metadata
    |unfold create_secret | unfold share_secret | unfold delete_secret
    |unfold get_secret | unfold get_secret_metadata
    |unfold get_secret_content | unfold update_secret_metadata
    |unfold update_identity_metadata | unfold get_events
    |unfold get_secrets];
    step_validators log ltac:(done);
    cbn beta iota; step_signed log; try done;
    unfold raised; run_tail;
    by rewrite raise_for_status_error by by eapply Herror.
Qed.



(** X7: a response to [register_identity] that is not an error but whose
    JSON object has no [identityId] member makes the call raise
    [KeyError] for that key, after the registration request went out. *)
Theorem register_identity_without_identityId
    ek sk ext md log response m :
  transport (prepare (register_identity_request ek sk ext md))
    = Return response →
  ¬ (400 ≤ Response.status_code response < 600) →
  Response.json response = Some (JObj m) →
  m !! "identityId" = None →
  register_identity ek sk ext md log
  = (Raise (KeyError "identityId"),
     log ++ [mkSent (register_identity_request ek sk ext md)
               (prepare (register_identity_request ek sk ext md))]).
Proof.
  intros Htransport Hstatus Hjson Hkey.
  unfold register_identity, requests.request, requests.send. run_tail.
  rewrite Htransport. simpl.
  rewrite raise_for_status_ok, Hjson by done. simpl. by rewrite Hkey.
Qed.

(** X8: [get_secret_metadata] has no result without a readable version:
    when the response is not an error and carries a JSON object, but has no
    [ETag] header or one that does not read as an integer, the call raises
    ([KeyError] for the header, [ValueError] naming the literal) after the
    request went out, and the metadata it decoded is lost. *)
Theorem get_secret_metadata_without_version
    requestor_id secret_id log w response m :
  valid_id requestor_id = true →
  valid_id secret_id = true →
  sign_request requestor_id (prepare (get_secret_metadata_request secret_id))
    = Return w →
  transport w = Return response →
  ¬ (400 ≤ Response.status_code response < 600) →
  Response.json response = Some (JObj m) →
  Response.headers response !! lower "ETag" ≫= int_of_str = None →
  ∃ e,
    get_secret_metadata requestor_id secret_id log
    = (Raise e, log ++ [mkSent (get_secret_metadata_request secret_id) w])
    ∧ (e = KeyError (lower "ETag")
       ∧ Response.headers response !! lower "ETag" = None
       ∨ (∃ etag message,
            Response.headers response !! lower "ETag" = Some etag
            ∧ int_of_str etag = None
            ∧ e = ValueError message)).
Proof.
  intros Hrequestor Hsecret Hsign Htransport Hstatus Hjson Hetag.
  unfold get_secret_metadata.
  rewrite (run_bind_Return _ _ log log tt)
    by (apply check_id_pass; by repeat constructor).
  rewrite (signed_request_run _ _ _ _ w) by done.
  rewrite Htransport. run_tail.
  rewrite raise_for_status_ok, Hjson by done. cbn [dict_of_json].
  destruct (Response.headers response !! lower "ETag") as [etag|] eqn:Hheader.
  - cbn [mbind option_bind] in Hetag. rewrite Hetag.
    eexists. split; [done|]. right. by eexists etag, _.
  - eexists. split; [done|]. by left.
Qed.

(** X9: the version travels in one text form: when the server sends back
    as [ETag] the very text that [update_secret_metadata] sends as
    [If-Match] for [version], [get_secret_metadata] returns [version]. *)
Theorem etag_reads_back_the_version_sent
    requestor_id secret_id log w response m updated_secret_id metadata
    version :
  valid_id requestor_id = true →
  valid_id secret_id = true →
  sign_request requestor_id (prepare (get_secret_metadata_request secret_id))
    = Return w →
  transport w = Return response →
  ¬ (400 ≤ Response.status_code response < 600) →
  Response.json response = Some (JObj m) →
  Response.headers response !! lower "ETag"
  = Request.headers
      (update_secret_metadata_request updated_secret_id metadata version)
      !! lower "If-Match" →
  get_secret_metadata requestor_id secret_id log
  = (Return (m, version),
     log ++ [mkSent (get_secret_metadata_request secret_id) w]).
Proof.
  intros Hrequestor Hsecret Hsign Htransport Hstatus Hjson Hetag.
  unfold get_secret_metadata.
  rewrite (run_bind_Return _ _ log log tt)
    by (apply check_id_pass; by repeat constructor).
  rewrite (signed_request_run _ _ _ _ w) by done.
  rewrite Htransport. run_tail.
  rewrite raise_for_status_ok, Hjson by done. cbn [dict_of_json].
  rewrite Hetag. cbn [Request.headers update_secret_metadata_request].
  change (lower "If-Match") with "if-match". rewrite lookup_singleton_eq.
  by rewrite int_of_str_str.
Qed.

(** X10: the query of [get_secrets], besides [baseSecret]: [createdBy] and
    [rsaKeyOwner] are sent exactly when the argument is given, with its
    value; [page] and [pageSize] exactly when the argument is a non-zero
    integer, as its decimal text; every metadata entry is sent under
    ["metadata." + key] with its value; and no other parameter is sent.
    The metadata never displaces one of the other filters. *)
Theorem get_secrets_query
    base_secret_id created_by rsa_key_owner_id metadata lookup_type
    page page_size :
  let query :=
    encode_params
      (Request.params
         (get_secrets_request base_secret_id created_by rsa_key_owner_id
            metadata lookup_type page page_size)) in
  query !! "createdBy" = created_by
  ∧ query !! "rsaKeyOwner" = rsa_key_owner_id
  ∧ query !! "page" = page ≫= (λ n, if n =? 0 then None else Some (str n))
  ∧ query !! "pageSize"
    = page_size ≫= (λ n, if n =? 0 then None else Some (str n))
  ∧ (∀ k, query !! ("metadata." +:+ k) = metadata ≫= (λ m, m !! k))
  ∧ (∀ key,
       key ∉ ["page"; "pageSize"; "baseSecret"; "createdBy"; "rsaKeyOwner"] →
       (∀ k, key ≠ "metadata." +:+ k) →
       query !! key = None).
Proof.
  intros query. subst query. unfold encode_params. simpl.
  assert (∀ key, key ≠ "baseSecret" →
    get_secrets_params base_secret_id created_by rsa_key_owner_id metadata
      lookup_type page page_size !! key
    = get_secrets_metadata_params base_secret_id created_by rsa_key_owner_id
        metadata page page_size !! key) as Hframe.
  { intros key Hkey. unfold get_secrets_params.
    by destruct lookup_type; rewrite ?lookup_insert_ne by done. }
  split_and!.
  - rewrite lookup_omap, Hframe, get_secrets_metadata_params_lookup by done.
    by destruct created_by.
  - rewrite lookup_omap, Hframe, get_secrets_metadata_params_lookup by done.
    by destruct rsa_key_owner_id.
  - rewrite lookup_omap, get_secrets_params_page.
    destruct page as [n|]; [|done]. simpl. by destruct (n =? 0).
  - rewrite lookup_omap, get_secrets_params_pageSize.
    destruct page_size as [n|]; [|done]. simpl. by destruct (n =? 0).
  - intros k. rewrite lookup_omap, Hframe by done.
    unfold get_secrets_metadata_params. destruct metadata as [m|]; simpl.
    + rewrite lookup_union, metadata__lookup.
      destruct (m !! k) as [v|] eqn:Hk; simpl.
      * by rewrite union_Some_l.
      * rewrite (left_id None _).
        unfold get_secrets_initial_params.
        by rewrite !lookup_insert_ne, lookup_singleton_ne by done.
    + unfold get_secrets_initial_params.
      by rewrite !lookup_insert_ne, lookup_singleton_ne by done.
  - intros key Hfixed Hmetadata.
    rewrite lookup_omap, Hframe by set_solver.
    rewrite get_secrets_metadata_params_lookup by done.
    unfold get_secrets_initial_params.
    by rewrite !lookup_insert_ne, lookup_singleton_ne by set_solver.
Qed.

(** X11: the query of [get_events] always has [purpose=AUDIT]; [secretId]
    and [rsaKeyOwner] are sent exactly when the argument is given, with its
    value; no other parameter is sent, and no entry of [params] is
    [None]. *)
Theorem get_events_query secret_id rsa_key_owner_id :
  let params :=
    Request.params (get_events_request secret_id rsa_key_owner_id) in
  encode_params params !! "purpose" = Some "AUDIT"
  ∧ encode_params params !! "secretId" = secret_id
  ∧ encode_params params !! "rsaKeyOwner" = rsa_key_owner_id
  ∧ (∀ key,
       key ∉ ["purpose"; "secretId"; "rsaKeyOwner"] →
       encode_params params !! key = None)
  ∧ (∀ key, params !! key ≠ Some PNone).
Proof.
  intros params. subst params. unfold encode_params. simpl.
  unfold get_events_params.
  split_and!.
  - rewrite lookup_omap. by destruct secret_id, rsa_key_owner_id.
  - rewrite lookup_omap. by destruct secret_id, rsa_key_owner_id.
  - rewrite lookup_omap. by destruct secret_id, rsa_key_owner_id.
  - intros key Hkey. rewrite lookup_omap.
    destruct secret_id, rsa_key_owner_id;
      by rewrite ?lookup_insert_ne, lookup_singleton_ne by set_solver.
  - intros key.
    destruct secret_id, rsa_key_owner_id;
      rewrite ?lookup_insert, lookup_singleton;
      repeat case_decide; done.
Qed.

(** X12: the query of [get_identities_by_metadata]: [page] and [pageSize]
    are sent exactly when the argument is a non-zero integer, negative ones
    included, as its decimal text; besides them only the metadata entries
    are sent, and no metadata entry is lost to [page] or [pageSize]. *)
Theorem get_identities_by_metadata_query metadata page page_size :
  let query :=
    encode_params
      (Request.params
         (get_identities_by_metadata_request metadata page page_size)) in
  query !! "page" = page ≫= (λ n, if n =? 0 then None else Some (str n))
  ∧ query !! "pageSize"
    = page_size ≫= (λ n, if n =? 0 then None else Some (str n))
  ∧ (∀ k, query !! ("metadata." +:+ k) = metadata !! k)
  ∧ (∀ key,
       key ∉ ["page"; "pageSize"] →
       (∀ k, key ≠ "metadata." +:+ k) →
       query !! key = None).
Proof.
  intros query. subst query. unfold encode_params. simpl.
  split_and!.
  - rewrite lookup_omap, get_identities_by_metadata_params_page.
    destruct page as [n|]; [|done]. simpl. by destruct (n =? 0).
  - rewrite lookup_omap, get_identities_by_metadata_params_pageSize.
    destruct page_size as [n|]; [|done]. simpl. by destruct (n =? 0).
  - intros k. rewrite lookup_omap.
    unfold get_identities_by_metadata_params.
    rewrite !lookup_insert_ne, metadata__lookup by done.
    by destruct (metadata !! k).
  - intros key Hfixed Hmetadata. rewrite lookup_omap.
    unfold get_identities_by_metadata_params.
    rewrite !lookup_insert_ne by set_solver.
    by rewrite metadata__lookup_other.
Qed.

(** X13: identifiers are spliced into the URL as they are.  Different ids
    give different URLs for every resource, but an id that ends in
    [/metadata] or [/content] makes [get_secret] build the very request of
    [get_secret_metadata] or [get_secret_content] for the shorter id: only
    the validation of the id keeps the three resources apart. *)
Theorem identifiers_are_spliced_into_urls (id id' : string) :
  (get_identity_request id = get_identity_request id' ↔ id = id')
  ∧ (get_secret_request id = get_secret_request id' ↔ id = id')
  ∧ (delete_secret_request id = delete_secret_request id' ↔ id = id')
  ∧ (get_secret_metadata_request id = get_secret_metadata_request id'
     ↔ id = id')
  ∧ (get_secret_content_request id = get_secret_content_request id'
     ↔ id = id')
  ∧ get_secret_request (id +:+ "/metadata") = get_secret_metadata_request id
  ∧ get_secret_request (id +:+ "/content") = get_secret_content_request id.
Proof.
  split_and!; try (split; [|by intros ->]).
  - intros [= Hurl]. by simplify_eq.
  - intros [= Hurl]. by simplify_eq.
  - intros [= Hurl]. by simplify_eq.
  - intros [= Hurl]. simplify_eq. by eapply append_inj_l.
  - intros [= Hurl]. simplify_eq. by eapply append_inj_l.
  - done.
  - done.
Qed.

End extras.

(** ** The further properties against the test double *)

Lemma missing_signing_key_transmits_nothing_witness :
  let response := Mock.response 200 ∅ None in
  @get_private_signing_key (Mock.collaborators response) "nobody"
  = Raise (KeyError "nobody")
  ∧ refused (KeyError "nobody") []
      (@ApiClient.get_secret (Mock.collaborators response) "nobody"
         "secret-1" []).
Proof.
  intros response. split; [reflexivity|].
  destruct (@missing_signing_key_transmits_nothing
              (Mock.collaborators response) "nobody" (KeyError "nobody") []
              "identity-1" "secret-1" "content" ∅ "secret-0" "identity-2" ∅
              1 None None None None None SecretLookupType.any None None
              eq_refl)
    as (_ & _ & _ & _ & _ & Hget_secret & _).
  exact Hget_secret.
Defined.

Lemma error_status_never_returns_witness :
  let response :=
    Mock.response 404 ∅ (Some (JObj {[ "identityId" := JStr "abc" ]})) in
  400 ≤ Response.status_code response < 600
  ∧ raised
      (@ApiClient.register_identity (Mock.collaborators response)
         "encryption-key" "signing-key" None None [])
  ∧ raised
      (@ApiClient.get_secret (Mock.collaborators response)
         Mock.requestor_id "secret-1" []).
Proof.
  intros response.
  assert (400 ≤ Response.status_code response < 600) as Hstatus
    by (simpl; lia).
  split; [exact Hstatus|].
  destruct (@error_status_never_returns
              (Mock.collaborators response) Mock.requestor_id []
              "encryption-key" "signing-key" None None
              "identity-1" "secret-1" "content" ∅ "secret-0" "identity-2" ∅
              1 None None None None None SecretLookupType.any None None)
    as (Hregister & _ & _ & _ & _ & _ & Hget_secret & _).
  - intros r response' Htransport. simpl in Htransport.
    injection Htransport as <-. exact Hstatus.
  - split; [exact Hregister|exact Hget_secret].
Defined.



Lemma register_identity_without_identityId_witness :
  let response := Mock.response 201 ∅ (Some (JObj {[ "id" := JStr "abc" ]})) in
  ¬ (400 ≤ Response.status_code response < 600)
  ∧ (@ApiClient.register_identity (Mock.collaborators response)
       "encryption-key" "signing-key" None None []).1
    = Raise (KeyError "identityId").
Proof.
  intros response.
  assert (¬ (400 ≤ Response.status_code response < 600)) as Hstatus
    by (simpl; lia).
  split; [exact Hstatus|].
  exact (f_equal fst
           (@register_identity_without_identityId
              (Mock.collaborators response) "encryption-key" "signing-key"
              None None [] response {[ "id" := JStr "abc" ]}
              eq_refl Hstatus eq_refl eq_refl)).
Defined.

Lemma get_secret_metadata_without_version_witness :
  let response :=
    Mock.response 200 {[ "etag" := "W/1" ]}
      (Some (JObj {[ "name" := JStr "a" ]})) in
  int_of_str "W/1" = None
  ∧ ∃ e,
      (@ApiClient.get_secret_metadata (Mock.collaborators response)
         Mock.requestor_id "secret-1" []).1 = Raise e.
Proof.
  intros response. split; [reflexivity|].
  assert (¬ (400 ≤ Response.status_code response < 600)) as Hstatus
    by (simpl; lia).
  destruct (@get_secret_metadata_without_version
              (Mock.collaborators response) Mock.requestor_id "secret-1" []
              _ response {[ "name" := JStr "a" ]}
              eq_refl eq_refl eq_refl eq_refl Hstatus eq_refl eq_refl)
    as (e & Hrun & _).
  exists e. exact (f_equal fst Hrun).
Defined.

Lemma etag_reads_back_the_version_sent_witness :
  let response :=
    Mock.response 200 {[ "etag" := "7" ]}
      (Some (JObj {[ "name" := JStr "b" ]})) in
  Request.headers
    (ApiClient.update_secret_metadata_request "secret-1"
       {[ "name" := "b" ]} 7) !! "if-match" = Some "7"
  ∧ (@ApiClient.get_secret_metadata (Mock.collaborators response)
       Mock.requestor_id "secret-1" []).1
    = Return ({[ "name" := JStr "b" ]}, 7).
Proof.
  intros response. split; [reflexivity|].
  assert (¬ (400 ≤ Response.status_code response < 600)) as Hstatus
    by (simpl; lia).
  exact (f_equal fst
           (@etag_reads_back_the_version_sent
              (Mock.collaborators response) Mock.requestor_id "secret-1" []
              _ response {[ "name" := JStr "b" ]} "secret-1"
              {[ "name" := "b" ]} 7
              eq_refl eq_refl eq_refl eq_refl Hstatus eq_refl eq_refl)).
Defined.
